(** * Error Lifecycle Engine: log classifier, fix orchestrator and event bus

    A shallow embedding of
      - [backend/app/core/config.py]            ([RetryConfig]),
      - [backend/app/models/error.py]           ([Error], [FixAttempt]),
      - [backend/app/services/event_bus.py]     ([EventBus]),
      - [backend/app/services/error_detector.py] ([ErrorDetectorService]),
      - [backend/app/services/error_fixer.py]   ([ErrorFixerService]),
      - [backend/app/api/routes/errors.py]      (the retry route),
    followed by the properties of the specification that concern them.

    Conventions of the embedding.
      - Text is a [string] of one-byte characters; the functions of Python's
        [str] that the services use are written out below.
      - A [datetime] is a number of microseconds ([Z]); [datetime.utcnow()]
        reads the next value of a clock [utcnow : nat -> Z] and [uuid.uuid4()]
        draws the next value of [uuid4 : nat -> string]; the number of reads
        and draws made so far is part of the state.
      - The two SQL tables are lists of rows in insertion order; a session's
        writes are applied to the tables directly.
      - What the outside world answers (the log file, the agent subprocess,
        the post-fix checks) is an argument of the operation that asks. *)

From Stdlib Require Import ZArith QArith Qround Qminmax Qpower Bool List FinFun Sorted
  Ascii String DecimalString Lia.
Import ListNotations.

#[local] Open Scope string_scope.
#[local] Open Scope list_scope.
#[local] Open Scope Z_scope.

(** ** Python's [str] and [list] operations used by the services *)

Module Py.

Definition NL : ascii := "010"%char.
Definition TAB : ascii := "009"%char.

(** [c.isspace()] on the one-byte characters below 128. *)
Definition isspace (c : ascii) : bool :=
  let n := nat_of_ascii c in
  ((9 <=? n) && (n <=? 13) || (28 <=? n) && (n <=? 32))%nat.

Definition isdigit (c : ascii) : bool :=
  let n := nat_of_ascii c in ((48 <=? n) && (n <=? 57))%nat.

(** [not s.strip()] *)
Fixpoint blank (s : string) : bool :=
  match s with
  | EmptyString => true
  | String c s' => isspace c && blank s'
  end.

(** [s.startswith(p)] *)
Fixpoint startswith (p s : string) : bool :=
  match p, s with
  | EmptyString, _ => true
  | String a p', String b s' => Ascii.eqb a b && startswith p' s'
  | String _ _, EmptyString => false
  end.

(** [p in s] *)
Fixpoint contains (p s : string) : bool :=
  startswith p s ||
  match s with
  | EmptyString => false
  | String _ s' => contains p s'
  end.

(** [s[:n]] for [n >= 0] *)
Fixpoint take (n : nat) (s : string) : string :=
  match n, s with
  | S n', String c s' => String c (take n' s')
  | _, _ => EmptyString
  end.

(** [s[:n]] for any [n]: a negative [n] counts from the end. *)
Definition upto (n : Z) (s : string) : string :=
  if 0 <=? n then take (Z.to_nat n) s
  else take (Z.to_nat (Z.of_nat (String.length s) + n)) s.

(** [s[n:]] for [n >= 0] *)
Fixpoint drop (n : nat) (s : string) : string :=
  match n, s with
  | S n', String _ s' => drop n' s'
  | _, _ => s
  end.

(** [s.split("\n")]: never empty, the last piece is what follows the last
    newline. *)
Fixpoint split_nl_acc (cur : string) (s : string) : list string :=
  match s with
  | EmptyString => [cur]
  | String c s' =>
      if Ascii.eqb c NL then cur :: split_nl_acc "" s'
      else split_nl_acc (cur ++ String c "")%string s'
  end.

Definition split_nl (s : string) : list string := split_nl_acc "" s.

(** ["\n".join(l)] *)
Definition join_nl (l : list string) : string :=
  String.concat (String NL "") l.

(** [l[-n:]]: the start index [-n] counts from the end when negative, and
    [l[-0:]] is the whole list. *)
Definition lastn {A} (n : Z) (l : list A) : list A :=
  let len := Z.of_nat (List.length l) in
  let start := if 0 <? n then Z.max (len - n) 0 else Z.min (- n) len in
  skipn (Z.to_nat start) l.

(** [l.pop(0)], for what it leaves of a non-empty [l] *)
Definition pop0 {A} (l : list A) : list A := tl l.

(** [int(s)] on a run of decimal digits *)
Fixpoint int_acc (acc : Z) (s : string) : Z :=
  match s with
  | EmptyString => acc
  | String c s' => int_acc (10 * acc + (Z.of_nat (nat_of_ascii c) - 48)) s'
  end.

Definition int (s : string) : Z := int_acc 0 s.

(** [s.endswith(p)] *)
Definition endswith (p s : string) : bool :=
  (String.length p <=? String.length s)%nat
  && String.eqb (drop (String.length s - String.length p) s) p.

(** Truthiness of an [Optional[str]]: [None] and [""] are false. *)
Definition truthy (o : option string) : bool :=
  match o with
  | None => false
  | Some s => negb (String.eqb s "")
  end.

(** [a or b] on optional strings. *)
Definition or_else (o : option string) (d : string) : string :=
  if truthy o then match o with Some s => s | None => d end else d.

End Py.

(** ** The fragment of [re] used by the detector's patterns

    Literals, the classes [.], [\d] and [[^c]] under greedy [*], [+] and
    [{n}], optional and alternative sub-patterns and capturing groups
    (numbered in opening order; no group of the patterns is nested).
    Matching is by backtracking, leftmost and greedy, as in [re]. *)

Module Re.

Inductive cclass : Type :=
| Dot                    (* .     any character but a newline *)
| Digit                  (* \d *)
| Not (c : ascii).       (* [^c] *)

Definition cmatch (k : cclass) (c : ascii) : bool :=
  match k with
  | Dot => negb (Ascii.eqb c Py.NL)
  | Digit => Py.isdigit c
  | Not x => negb (Ascii.eqb c x)
  end.

Inductive t : Type :=
| Lit (s : string)
| Star (k : cclass)
| Plus (k : cclass)
| Rep (n : nat) (k : cclass)
| Opt (r : t)
| Alt (r1 r2 : t)
| Seq (r1 r2 : t)
| Group (r : t).

(** The groups matched so far, and what is left of the subject. *)
Definition cont (R : Type) : Type := string -> list string -> option R.

Definition orelse {R} (a b : option R) : option R :=
  match a with Some _ => a | None => b end.

Fixpoint star {R} (k : cclass) (kont : cont R) (s : string) (caps : list string) : option R :=
  match s with
  | String c s' =>
      if cmatch k c then orelse (star k kont s' caps) (kont s caps)
      else kont s caps
  | EmptyString => kont s caps
  end.

Fixpoint rep {R} (n : nat) (k : cclass) (kont : cont R) (s : string) (caps : list string) : option R :=
  match n with
  | O => kont s caps
  | S n' =>
      match s with
      | String c s' => if cmatch k c then rep n' k kont s' caps else None
      | EmptyString => None
      end
  end.

Fixpoint run {R} (r : t) (kont : cont R) (s : string) (caps : list string) : option R :=
  match r with
  | Lit l =>
      if Py.startswith l s then kont (Py.drop (String.length l) s) caps else None
  | Star k => star k kont s caps
  | Plus k => rep 1 k (star k kont) s caps
  | Rep n k => rep n k kont s caps
  | Opt r' => orelse (run r' kont s caps) (kont s caps)
  | Alt r1 r2 => orelse (run r1 kont s caps) (run r2 kont s caps)
  | Seq r1 r2 => run r1 (run r2 kont) s caps
  | Group r' =>
      run r' (fun rest caps' =>
                kont rest (caps' ++ [Py.take (String.length s - String.length rest) s]))
          s caps
  end.

(** [pattern.match(s)]: the groups and the rest of the subject. *)
Definition match_ (r : t) (s : string) : option (list string * string) :=
  run r (fun rest caps => Some (caps, rest)) s [].

(** [pattern.search(s)]: the leftmost match. *)
Fixpoint search_rest (r : t) (s : string) : option (list string * string) :=
  orelse (match_ r s)
         match s with
         | EmptyString => None
         | String _ s' => search_rest r s'
         end.

Definition search (r : t) (s : string) : option (list string) :=
  option_map fst (search_rest r s).

(** [pattern.findall(s)]: the groups of the successive matches, each
    search resuming where the previous match ended (one character further
    after an empty match, which the patterns below never produce). *)
Fixpoint findall_fuel (fuel : nat) (r : t) (s : string) : list (list string) :=
  match fuel with
  | O => []
  | S fuel' =>
      match search_rest r s with
      | None => []
      | Some (caps, rest) =>
          let rest' := if (String.length rest <? String.length s)%nat
                       then rest else Py.drop 1 rest in
          caps :: match s with
                  | EmptyString => []
                  | String _ _ => findall_fuel fuel' r rest'
                  end
      end
  end.

Definition findall (r : t) (s : string) : list (list string) :=
  findall_fuel (S (String.length s)) r s.

(** [m.group(1)] *)
Definition group1 (caps : list string) : option string := nth_error caps 0.

Fixpoint seq (rs : list t) : t :=
  match rs with
  | [] => Lit ""
  | [r] => r
  | r :: rs' => Seq r (seq rs')
  end.

End Re.

(** ** [app/core/config.py]: the retry configuration *)

Module RetryConfig.

(** [multiplier] is a Python [float]; it is held as the rational it
    denotes and the arithmetic on it is exact. *)
Record t : Type := mk {
  max_attempts : Z;
  base_delay_seconds : Z;
  multiplier : Q;
  max_delay_seconds : Z
}.

(** The field defaults of the class. *)
Definition default : t := mk 5 60 2 960.


(** [int(x)] on a float: truncation towards zero. *)
Definition int_of_float (x : Q) : Z :=
  if Qle_bool 0 x then Qfloor x else Qceiling x.

(** [get_delay(self, attempt)] *)
Definition get_delay (self : t) (attempt : Z) : Z :=
  let delay := (inject_Z (base_delay_seconds self) * Qpower (multiplier self) (attempt - 1))%Q in
  Z.min (int_of_float delay) (max_delay_seconds self).

End RetryConfig.

(** ** [app/models/error.py]: the rows of the two tables *)

Module ErrorSeverity.
Inductive t : Type := CRITICAL | HIGH | MEDIUM | LOW.
Definition value (s : t) : string :=
  match s with
  | CRITICAL => "CRITICAL" | HIGH => "HIGH" | MEDIUM => "MEDIUM" | LOW => "LOW"
  end.
End ErrorSeverity.

Module ErrorCategory.
Inductive t : Type := PYTHON | DATABASE | ODOO | ASSET | DEPENDENCY.
Definition value (c : t) : string :=
  match c with
  | PYTHON => "PYTHON" | DATABASE => "DATABASE" | ODOO => "ODOO"
  | ASSET => "ASSET" | DEPENDENCY => "DEPENDENCY"
  end.
End ErrorCategory.

Module ErrorStatus.
Inductive t : Type := DETECTED | QUEUED | FIXING | RESOLVED | FAILED | IGNORED.

Definition eqb (a b : t) : bool :=
  match a, b with
  | DETECTED, DETECTED | QUEUED, QUEUED | FIXING, FIXING
  | RESOLVED, RESOLVED | FAILED, FAILED | IGNORED, IGNORED => true
  | _, _ => false
  end.

(** The statuses the spec calls non-terminal. *)
Definition active (s : t) : bool :=
  match s with
  | DETECTED | QUEUED | FIXING => true
  | RESOLVED | FAILED | IGNORED => false
  end.
End ErrorStatus.

Module FixAttemptStatus.
Inductive t : Type := IN_PROGRESS | SUCCESS | FAILED | TIMEOUT.

Definition eqb (a b : t) : bool :=
  match a, b with
  | IN_PROGRESS, IN_PROGRESS | SUCCESS, SUCCESS
  | FAILED, FAILED | TIMEOUT, TIMEOUT => true
  | _, _ => false
  end.
End FixAttemptStatus.

Module Error.
Record t : Type := mk {
  id : string;
  error_type : string;
  severity : ErrorSeverity.t;
  category : ErrorCategory.t;
  message : string;
  stack_trace : option string;
  module_name : option string;
  file_path : option string;
  line_number : option Z;
  context_before : list string;
  raw_log : string;
  status : ErrorStatus.t;
  auto_fixable : bool;
  detected_at : Z;
  resolved_at : option Z;
  ignored_at : option Z;
  ignored_by : option string
}.

Definition set_status (s : ErrorStatus.t) (e : t) : t :=
  mk (id e) (error_type e) (severity e) (category e) (message e)
     (stack_trace e) (module_name e) (file_path e) (line_number e)
     (context_before e) (raw_log e) s (auto_fixable e) (detected_at e)
     (resolved_at e) (ignored_at e) (ignored_by e).

Definition set_resolved_at (r : option Z) (e : t) : t :=
  mk (id e) (error_type e) (severity e) (category e) (message e)
     (stack_trace e) (module_name e) (file_path e) (line_number e)
     (context_before e) (raw_log e) (status e) (auto_fixable e) (detected_at e)
     r (ignored_at e) (ignored_by e).

Definition set_ignored (at_ : option Z) (by_ : option string) (e : t) : t :=
  mk (id e) (error_type e) (severity e) (category e) (message e)
     (stack_trace e) (module_name e) (file_path e) (line_number e)
     (context_before e) (raw_log e) (status e) (auto_fixable e) (detected_at e)
     (resolved_at e) at_ by_.
End Error.

Module FixAttempt.
(** [execution_time_seconds] (a wall-clock float) and [fix_diff] (never
    written) are left out. *)
Record t : Type := mk {
  id : Z;
  error_id : string;
  attempt_number : Z;
  status : FixAttemptStatus.t;
  claude_prompt : option string;
  claude_response : option string;
  files_modified : option (list string);
  error_after_fix : option string;
  started_at : Z;
  completed_at : option Z
}.

Definition set_status (s : FixAttemptStatus.t) (a : t) : t :=
  mk (id a) (error_id a) (attempt_number a) s (claude_prompt a)
     (claude_response a) (files_modified a) (error_after_fix a)
     (started_at a) (completed_at a).

Definition set_response (p r : option string) (f : option (list string)) (a : t) : t :=
  mk (id a) (error_id a) (attempt_number a) (status a) p r f
     (error_after_fix a) (started_at a) (completed_at a).

Definition set_error_after_fix (x : option string) (a : t) : t :=
  mk (id a) (error_id a) (attempt_number a) (status a) (claude_prompt a)
     (claude_response a) (files_modified a) x (started_at a) (completed_at a).

Definition set_completed_at (c : option Z) (a : t) : t :=
  mk (id a) (error_id a) (attempt_number a) (status a) (claude_prompt a)
     (claude_response a) (files_modified a) (error_after_fix a)
     (started_at a) c.
End FixAttempt.

(** ** [app/services/event_bus.py] *)

Module EventType.
Inductive t : Type :=
| STATUS_CHANGE | HEARTBEAT
| REPO_CHANGE_DETECTED | REPO_POLL_ERROR
| UPDATE_STARTED | UPDATE_COMPLETED | UPDATE_FAILED | UPDATE_ROLLED_BACK
| ERROR_DETECTED | ERROR_RESOLVED | ERROR_IGNORED
| FIX_STARTED | FIX_PROGRESS | FIX_COMPLETED | FIX_FAILED | FIX_ESCALATED.

Definition value (e : t) : string :=
  match e with
  | STATUS_CHANGE => "status_change" | HEARTBEAT => "heartbeat"
  | REPO_CHANGE_DETECTED => "repo_change_detected"
  | REPO_POLL_ERROR => "repo_poll_error"
  | UPDATE_STARTED => "update_started" | UPDATE_COMPLETED => "update_completed"
  | UPDATE_FAILED => "update_failed" | UPDATE_ROLLED_BACK => "update_rolled_back"
  | ERROR_DETECTED => "error_detected" | ERROR_RESOLVED => "error_resolved"
  | ERROR_IGNORED => "error_ignored"
  | FIX_STARTED => "fix_started" | FIX_PROGRESS => "fix_progress"
  | FIX_COMPLETED => "fix_completed" | FIX_FAILED => "fix_failed"
  | FIX_ESCALATED => "fix_escalated"
  end.

(** The members are a [str] enum: two are equal when their values are. *)
Definition eqb (a b : t) : bool := String.eqb (value a) (value b).
End EventType.

(** A value of an event's payload dictionary. *)
Inductive PyVal : Type :=
| VNone
| VStr (s : string)
| VInt (n : Z)
| VBool (b : bool)
| VList (l : list string).

Definition opt_str (o : option string) : PyVal :=
  match o with Some s => VStr s | None => VNone end.

Module Event.
Record t : Type := mk {
  type : EventType.t;
  payload : list (string * PyVal);
  timestamp : Z;
  source : string
}.
End Event.

Module EventBus.

(** A handler is known by its identity; what a handler does when called is
    outside the bus, which only decides who is called with what. *)
Definition EventHandler : Type := nat.

Record t : Type := mk {
  _subscribers : list (EventType.t * EventHandler);  (* in subscription order *)
  _global_subscribers : list EventHandler;
  _history : list Event.t;
  _history_size : Z
}.

(** [__init__(self, history_size=100)] *)
Definition init (history_size : Z) : t := mk [] [] [] history_size.
Definition default_history_size : Z := 100.

Definition subscribe (event_type : EventType.t) (handler : EventHandler) (self : t) : t :=
  mk (_subscribers self ++ [(event_type, handler)]) (_global_subscribers self)
     (_history self) (_history_size self).

Definition subscribe_all (handler : EventHandler) (self : t) : t :=
  mk (_subscribers self) (_global_subscribers self ++ [handler])
     (_history self) (_history_size self).

(** [list.remove]: the first occurrence only, nothing when absent. *)
Fixpoint remove_first (event_type : EventType.t) (handler : EventHandler)
         (l : list (EventType.t * EventHandler)) : list (EventType.t * EventHandler) :=
  match l with
  | [] => []
  | (ty, h) :: l' =>
      if EventType.eqb ty event_type && Nat.eqb h handler then l'
      else (ty, h) :: remove_first event_type handler l'
  end.

Definition unsubscribe (event_type : EventType.t) (handler : EventHandler) (self : t) : t :=
  mk (remove_first event_type handler (_subscribers self)) (_global_subscribers self)
     (_history self) (_history_size self).

(** The history part of [publish]: append, then drop the oldest event
    when the bound is exceeded. *)
Definition record (event : Event.t) (history : list Event.t) (size : Z) : list Event.t :=
  let h := history ++ [event] in
  if size <? Z.of_nat (List.length h) then Py.pop0 h else h.

Definition handlers_for (self : t) (event : Event.t) : list EventHandler :=
  _global_subscribers self ++
  map snd (filter (fun p => EventType.eqb (fst p) (Event.type event)) (_subscribers self)).

(** [publish(self, event)]: the bus after it, and the handlers that are
    awaited with [event], in call order. *)
Definition publish (event : Event.t) (self : t) : t * list EventHandler :=
  (mk (_subscribers self) (_global_subscribers self)
      (record event (_history self) (_history_size self)) (_history_size self),
   handlers_for self event).

(** [get_history(self, event_type=None, limit=50)] *)
Definition get_history (event_type : option EventType.t) (limit : Z) (self : t) : list Event.t :=
  match event_type with
  | Some ty =>
      Py.lastn limit (filter (fun e => EventType.eqb (Event.type e) ty) (_history self))
  | None => Py.lastn limit (_history self)
  end.

(** A run of [publish] calls, oldest first. *)
Definition publish_all (events : list Event.t) (self : t) : t :=
  fold_left (fun b e => fst (publish e b)) events self.

End EventBus.

(** ** The state shared by the services, and the monad threading it *)

Module Detector.
(** The fields of [ErrorDetectorService] that its operations touch. *)
Record t : Type := mk {
  _running : bool;
  _last_position : Z;
  _context_buffer : list string;
  _context_size : Z
}.

(** [__init__] *)
Definition init : t := mk false 0 [] 10.
End Detector.

Module Fixer.
(** The fields of [ErrorFixerService]; of [settings] only what the
    operations read: the retry configuration and [claude.enabled]. *)
Record t : Type := mk {
  retry_config : RetryConfig.t;
  claude_enabled : bool;
  _running : bool;
  _current_fix : option string
}.

Definition init (retry : RetryConfig.t) (enabled : bool) : t :=
  mk retry enabled false None.
End Fixer.

Record World : Type := mkWorld {
  errors : list Error.t;                 (* table [errors] *)
  fix_attempts : list FixAttempt.t;      (* table [fix_attempts] *)
  bus : EventBus.t;
  delivered : list (EventBus.EventHandler * Event.t);  (* handler calls made, oldest first *)
  reads : nat;                           (* calls of [datetime.utcnow()] so far *)
  draws : nat;                           (* calls of [uuid.uuid4()] so far *)
  detector : Detector.t;
  fixer : Fixer.t
}.

Definition set_errors (x : list Error.t) (w : World) : World :=
  mkWorld x (fix_attempts w) (bus w) (delivered w) (reads w) (draws w) (detector w) (fixer w).
Definition set_fix_attempts (x : list FixAttempt.t) (w : World) : World :=
  mkWorld (errors w) x (bus w) (delivered w) (reads w) (draws w) (detector w) (fixer w).
Definition set_bus (x : EventBus.t) (d : list (EventBus.EventHandler * Event.t)) (w : World) : World :=
  mkWorld (errors w) (fix_attempts w) x d (reads w) (draws w) (detector w) (fixer w).
Definition set_reads (x : nat) (w : World) : World :=
  mkWorld (errors w) (fix_attempts w) (bus w) (delivered w) x (draws w) (detector w) (fixer w).
Definition set_draws (x : nat) (w : World) : World :=
  mkWorld (errors w) (fix_attempts w) (bus w) (delivered w) (reads w) x (detector w) (fixer w).
Definition set_detector (x : Detector.t) (w : World) : World :=
  mkWorld (errors w) (fix_attempts w) (bus w) (delivered w) (reads w) (draws w) x (fixer w).
Definition set_fixer (x : Fixer.t) (w : World) : World :=
  mkWorld (errors w) (fix_attempts w) (bus w) (delivered w) (reads w) (draws w) (detector w) x.

(** A fresh process: empty tables, a bus with the default history size. *)
Definition boot (retry : RetryConfig.t) (enabled : bool) : World :=
  mkWorld [] [] (EventBus.init EventBus.default_history_size) [] 0 0
          Detector.init (Fixer.init retry enabled).

Definition M (A : Type) : Type := World -> A * World.

Definition ret {A} (a : A) : M A := fun w => (a, w).
Definition bind {A B} (m : M A) (k : A -> M B) : M B :=
  fun w => let (a, w') := m w in k a w'.
Definition gets {A} (f : World -> A) : M A := fun w => (f w, w).
Definition modify (f : World -> World) : M unit := fun w => (tt, f w).

Notation "x <- m ;; k" := (bind m (fun x => k))
  (at level 61, m at next level, right associativity).
Notation "m ;; k" := (bind m (fun _ => k))
  (at level 61, right associativity).

Definition exec {A} (m : M A) (w : World) : World := snd (m w).
Definition eval {A} (m : M A) (w : World) : A := fst (m w).

(** Rows are found and rewritten by primary key. *)
Definition find_error (id : string) (rows : list Error.t) : option Error.t :=
  find (fun e => String.eqb (Error.id e) id) rows.

Definition update_error (id : string) (f : Error.t -> Error.t) (rows : list Error.t) : list Error.t :=
  map (fun e => if String.eqb (Error.id e) id then f e else e) rows.

Definition update_attempt (id : Z) (f : FixAttempt.t -> FixAttempt.t)
           (rows : list FixAttempt.t) : list FixAttempt.t :=
  map (fun a => if FixAttempt.id a =? id then f a else a) rows.

(** [ORDER BY key]: a stable insertion sort; rows with equal keys keep their
      insertion order. *)
Fixpoint insert_by {A} (key : A -> Z) (x : A) (l : list A) : list A :=
  match l with
  | [] => [x]
  | y :: l' => if key y <=? key x then y :: insert_by key x l' else x :: l
  end.

Definition order_by {A} (key : A -> Z) (l : list A) : list A :=
  fold_left (fun acc x => insert_by key x acc) l [].

(** [error.fix_attempts]: the child rows, ordered by [attempt_number]. *)
Definition attempts_of (id : string) (rows : list FixAttempt.t) : list FixAttempt.t :=
  order_by FixAttempt.attempt_number
           (filter (fun a => String.eqb (FixAttempt.error_id a) id) rows).

(** ** [app/services/error_detector.py]: the pattern tables *)

Module Patterns.
Import Re.

Definition DQ : string := String "034"%char EmptyString.

(** A literal prefix followed by one group that holds the rest of the line. *)
Definition tail_of (prefix : string) : Re.t := Seq (Lit prefix) (Group (Star Dot)).

(** [ERROR_PATTERNS], in the insertion order of the dictionary. *)
Definition ERROR_PATTERNS
  : list (string * (Re.t * ErrorCategory.t * ErrorSeverity.t * bool)) :=
  [ ("ImportError", (tail_of "ImportError: ", ErrorCategory.PYTHON, ErrorSeverity.HIGH, true));
    ("ModuleNotFoundError",
      (seq [Lit "ModuleNotFoundError: No module named '"; Group (Star Dot); Lit "'"],
       ErrorCategory.DEPENDENCY, ErrorSeverity.HIGH, true));
    ("SyntaxError", (tail_of "SyntaxError: ", ErrorCategory.PYTHON, ErrorSeverity.CRITICAL, true));
    ("AttributeError", (tail_of "AttributeError: ", ErrorCategory.PYTHON, ErrorSeverity.HIGH, true));
    ("TypeError", (tail_of "TypeError: ", ErrorCategory.PYTHON, ErrorSeverity.HIGH, true));
    ("ValueError", (tail_of "ValueError: ", ErrorCategory.PYTHON, ErrorSeverity.MEDIUM, true));
    ("KeyError", (tail_of "KeyError: ", ErrorCategory.PYTHON, ErrorSeverity.MEDIUM, true));
    ("NameError", (tail_of "NameError: ", ErrorCategory.PYTHON, ErrorSeverity.HIGH, true));
    ("IndentationError", (tail_of "IndentationError: ", ErrorCategory.PYTHON, ErrorSeverity.CRITICAL, true));
    ("psycopg2.OperationalError",
      (tail_of "psycopg2.OperationalError: ", ErrorCategory.DATABASE, ErrorSeverity.CRITICAL, false));
    ("psycopg2.IntegrityError",
      (tail_of "psycopg2.IntegrityError: ", ErrorCategory.DATABASE, ErrorSeverity.HIGH, false));
    ("psycopg2.ProgrammingError",
      (tail_of "psycopg2.ProgrammingError: ", ErrorCategory.DATABASE, ErrorSeverity.HIGH, true));
    ("ValidationError",
      (tail_of "odoo.exceptions.ValidationError: ", ErrorCategory.ODOO, ErrorSeverity.MEDIUM, true));
    ("UserError", (tail_of "odoo.exceptions.UserError: ", ErrorCategory.ODOO, ErrorSeverity.LOW, false));
    ("AccessError", (tail_of "odoo.exceptions.AccessError: ", ErrorCategory.ODOO, ErrorSeverity.MEDIUM, false));
    ("MissingError", (tail_of "odoo.exceptions.MissingError: ", ErrorCategory.ODOO, ErrorSeverity.MEDIUM, true));
    ("ParseError", (tail_of "odoo.tools.convert.ParseError: ", ErrorCategory.ODOO, ErrorSeverity.HIGH, true));
    ("JavaScriptError",
      (seq [Lit "Error: "; Group (seq [Star Dot; Lit ".js:"; Plus Digit])],
       ErrorCategory.ASSET, ErrorSeverity.MEDIUM, true));
    ("SCSSCompilation", (tail_of "Error compiling scss: ", ErrorCategory.ASSET, ErrorSeverity.MEDIUM, true));
    ("AssetError", (tail_of "AssetError: ", ErrorCategory.ASSET, ErrorSeverity.MEDIUM, true)) ].

(** [File Q([^Q]+)Q, line (\d+)], where Q stands for the double quote. *)
Definition TRACEBACK_FILE_PATTERN : Re.t :=
  seq [Lit ("File " ++ DQ); Group (Plus (Not "034"%char));
       Lit (DQ ++ ", line "); Group (Plus Digit)]%string.

(** [/(?:custom_)?addons/([^/]+)/] *)
Definition MODULE_PATH_PATTERN : Re.t :=
  seq [Lit "/"; Opt (Lit "custom_"); Lit "addons/"; Group (Plus (Not "/"%char)); Lit "/"].

(** [^\d{4}-\d{2}-\d{2} \d{2}:\d{2}:\d{2},\d{3} \d+ (ERROR|CRITICAL|WARNING)],
    used with [match], which anchors it at the start of the line. *)
Definition ERROR_START_PATTERN : Re.t :=
  seq [Rep 4 Digit; Lit "-"; Rep 2 Digit; Lit "-"; Rep 2 Digit; Lit " ";
       Rep 2 Digit; Lit ":"; Rep 2 Digit; Lit ":"; Rep 2 Digit; Lit ",";
       Rep 3 Digit; Lit " "; Plus Digit; Lit " ";
       Group (Alt (Lit "ERROR") (Alt (Lit "CRITICAL") (Lit "WARNING")))].

End Patterns.

Section Services.

(** The clock behind [datetime.utcnow()], in microseconds, and the source
    of [uuid.uuid4()], both indexed by the number of earlier calls. *)
Variable utcnow : nat -> Z.
Variable uuid4 : nat -> string.

Definition now : M Z :=
  fun w => (utcnow (reads w), set_reads (S (reads w)) w).

Definition fresh_uuid : M string :=
  fun w => (uuid4 (draws w), set_draws (S (draws w)) w).

(** [EventBus.publish] on the shared bus; the handlers it awaits are
    logged in [delivered]. *)
Definition publish (event : Event.t) : M unit :=
  modify (fun w =>
            let (b, hs) := EventBus.publish event (bus w) in
            set_bus b (delivered w ++ map (fun h => (h, event)) hs) w).

(** [EventBus.emit]: the event's [timestamp] defaults to [utcnow()]. *)
Definition emit (event_type : EventType.t) (payload : list (string * PyVal))
           (source : string) : M unit :=
  ts <- now ;;
  publish (Event.mk event_type payload ts source).


(** *** [ErrorDetectorService] *)

(** [_extract_location]: the last [File "...", line n] of the text. *)
Definition _extract_location (log_text : string) : option string * option Z :=
  match rev (Re.findall Patterns.TRACEBACK_FILE_PATTERN log_text) with
  | [file_path; line_num] :: _ => (Some file_path, Some (Py.int line_num))
  | _ => (None, None)
  end.

Definition _extract_module_name (log_text : string) : option string :=
  match Re.search Patterns.MODULE_PATH_PATTERN log_text with
  | Some caps => Re.group1 caps
  | None => None
  end.

Fixpoint from_traceback (lines : list string) : list string :=
  match lines with
  | [] => []
  | line :: rest =>
      if Py.contains "Traceback" line then lines else from_traceback rest
  end.

Definition _extract_stack_trace (log_text : string) : option string :=
  if Py.contains "Traceback" log_text
  then Some (Py.join_nl (from_traceback (Py.split_nl log_text)))
  else None.

Definition one_minute : Z := 60 * 1000000.

(** The rows that the query of [_is_duplicate_error] selects. *)
Definition duplicate_of (error_type : string) (module_name : option string)
           (cutoff : Z) (e : Error.t) : bool :=
  String.eqb (Error.error_type e) error_type
  && (cutoff <? Error.detected_at e)
  && ErrorStatus.active (Error.status e)
  && (if Py.truthy module_name
      then match Error.module_name e, module_name with
           | Some m, Some m' => String.eqb m m'
           | _, _ => false
           end
      else true).

Definition _is_duplicate_error (error_type message : string)
           (module_name : option string) : M bool :=
  t <- now ;;
  let cutoff := t - one_minute in
  rows <- gets errors ;;
  ret (existsb (duplicate_of error_type module_name cutoff) rows).

Definition _create_error (error_type : string) (category : ErrorCategory.t)
           (severity : ErrorSeverity.t) (auto_fixable : bool)
           (message raw_log : string) (context_before : list string)
  : M (option Error.t) :=
  let (file_path, line_number) := _extract_location raw_log in
  let module_name := _extract_module_name raw_log in
  let stack_trace := _extract_stack_trace raw_log in
  dup <- _is_duplicate_error error_type message module_name ;;
  if dup then ret None
  else
    id <- fresh_uuid ;;
    detected_at <- now ;;
    let error :=
      Error.mk id error_type severity category (Py.upto 2000 message)
               stack_trace module_name file_path line_number context_before
               (Py.upto 10000 raw_log) ErrorStatus.DETECTED auto_fixable
               detected_at None None None in
    modify (fun w => set_errors (errors w ++ [error]) w) ;;
    emit EventType.ERROR_DETECTED
         [ ("error_id", VStr id);
           ("error_type", VStr error_type);
           ("severity", VStr (ErrorSeverity.value severity));
           ("category", VStr (ErrorCategory.value category));
           ("module", opt_str module_name);
           ("auto_fixable", VBool auto_fixable);
           ("message", VStr (Py.upto 200 message)) ]
         "error_detector" ;;
    ret (Some error).

(** The first entry of [ERROR_PATTERNS] whose pattern is found in the
    text, with the message taken from it. *)
Fixpoint first_pattern (table : list (string * (Re.t * ErrorCategory.t * ErrorSeverity.t * bool)))
         (full_text : string)
  : option (string * ErrorCategory.t * ErrorSeverity.t * bool * string) :=
  match table with
  | [] => None
  | (error_type, (pattern, category, severity, auto_fixable)) :: table' =>
      match Re.search pattern full_text with
      | Some caps =>
          let message := match Re.group1 caps with
                         | Some g => g
                         | None => Py.upto 500 full_text
                         end in
          Some (error_type, category, severity, auto_fixable, message)
      | None => first_pattern table' full_text
      end
  end.

Definition context_window : M (list string) :=
  gets (fun w => Py.lastn (Detector._context_size (detector w))
                         (Detector._context_buffer (detector w))).

Definition _process_error_block (lines : list string) : M unit :=
  match lines with
  | [] => ret tt
  | line0 :: _ =>
      let full_text := Py.join_nl lines in
      match first_pattern Patterns.ERROR_PATTERNS full_text with
      | Some (error_type, category, severity, auto_fixable, message) =>
          ctx <- context_window ;;
          _create_error error_type category severity auto_fixable message full_text ctx ;;
          ret tt
      | None =>
          if Py.contains "ERROR" line0 || Py.contains "CRITICAL" line0
          then
            ctx <- context_window ;;
            _create_error "UnknownError" ErrorCategory.PYTHON ErrorSeverity.HIGH true
                          (Py.upto 500 line0) full_text ctx ;;
            ret tt
          else ret tt
      end
  end.

(** The update of [_context_buffer] for one line. *)
Definition push_context (line : string) : M unit :=
  modify (fun w =>
            let d := detector w in
            let buf := Detector._context_buffer d ++ [line] in
            let buf' := if Detector._context_size d * 2 <? Z.of_nat (List.length buf)
                        then Py.pop0 buf else buf in
            set_detector (Detector.mk (Detector._running d) (Detector._last_position d)
                                      buf' (Detector._context_size d)) w).

Definition nonempty {A} (l : list A) : bool :=
  match l with [] => false | _ => true end.

(** The loop of [_process_log_content] over the lines, carrying
    [error_block] and [in_error_block]. *)
Fixpoint process_lines (lines : list string) (error_block : list string)
         (in_error_block : bool) : M (list string * bool) :=
  match lines with
  | [] => ret (error_block, in_error_block)
  | line :: rest =>
      if Py.blank line then process_lines rest error_block in_error_block
      else
        push_context line ;;
        match Re.match_ Patterns.ERROR_START_PATTERN line with
        | Some _ =>
            (if in_error_block && nonempty error_block
             then _process_error_block error_block else ret tt) ;;
            process_lines rest [line] true
        | None =>
            if in_error_block then
              if Py.startswith " " line || Py.startswith (String Py.TAB "") line
                 || Py.contains "Traceback" line
              then process_lines rest (error_block ++ [line]) in_error_block
              else
                _process_error_block error_block ;;
                process_lines rest [] false
            else process_lines rest error_block in_error_block
        end
  end.

Definition _process_log_content (content : string) : M unit :=
  st <- process_lines (Py.split_nl content) [] false ;;
  let (error_block, in_error_block) := st : list string * bool in
  if in_error_block && nonempty error_block
  then _process_error_block error_block
  else ret tt.

Definition set_running (b : bool) : M unit :=
  modify (fun w =>
            let d := detector w in
            set_detector (Detector.mk b (Detector._last_position d)
                                      (Detector._context_buffer d)
                                      (Detector._context_size d)) w).

Definition with_running (b : bool) (w : World) : World := exec (set_running b) w.

(** [LIMIT n], for [n >= 0] *)
Definition limit_rows {A} (n : Z) (l : list A) : list A := firstn (Z.to_nat n) l.

(** [scan_log_file(since, limit)]; [file] is the text of the log file, or
    [None] when the file does not exist. *)
Definition scan_log_file (file : option string) (since : option Z) (limit : Z)
  : M (list Error.t) :=
  match file with
  | None => ret []
  | Some content =>
      original_running <- gets (fun w => Detector._running (detector w)) ;;
      set_running false ;;          (* "Disable event emission during scan" *)
      _process_log_content content ;;
      set_running original_running ;;
      rows <- gets errors ;;
      let newest_first := order_by (fun e => - Error.detected_at e) rows in
      let selected := match since with
                      | Some s => filter (fun e => s <=? Error.detected_at e) newest_first
                      | None => newest_first
                      end in
      ret (limit_rows limit selected)
  end.

(** *** [ErrorFixerService] *)

Inductive Exn : Type :=
| TimeoutError                    (* [asyncio.TimeoutError] *)
| OtherException (msg : string).  (* any other subclass of [Exception] *)

Inductive Try (A : Type) : Type :=
| Returns (a : A)
| Raises (e : Exn).
Arguments Returns {A} a.
Arguments Raises {A} e.

Record ClaudeResponse : Type := mkResponse {
  success : bool;
  files_modified : list string;
  raw_output : string;
  error_message : option string
}.

Record VerificationResult : Type := mkVerification {
  fix_successful : bool;
  original_error_resolved : bool;
  new_errors_introduced : list string;
  syntax_check_passed : bool
}.

(** What happens when [_invoke_claude_code] runs the agent. *)
Inductive Invocation : Type :=
| Completed (returncode : Z) (stdout stderr : string) (modified : list string)
    (* [subprocess.run] returned; [modified] is what
       [_extract_modified_files] reads in [stdout] *)
| TimedOut
    (* [asyncio.wait_for] gave up after [timeout_seconds] *)
| RunRaised (msg : string)
    (* another exception inside the [try] around the run *)
| SetupRaised (msg : string).
    (* an exception before that [try], while the prompt and the
       workspace path are built *)

(** What [_verify_fix] observes. *)
Record Checks : Type := mkChecks {
  syntax_ok : string -> bool;     (* [py_compile] on a file *)
  restart : option string;        (* [Some msg]: [systemctl] failed, [RuntimeError(msg)] *)
  ready_reads : nat;              (* clock readings of [_wait_for_odoo_ready] *)
  tail200 : option string;        (* [tail -n 200] of the log, [None] without a log file *)
  tail500 : option string         (* [tail -n 500] of the log *)
}.

(** The surroundings of one fix attempt. *)
Record AttemptEnv : Type := mkAttemptEnv {
  prompt : string;                (* the text [_generate_prompt] builds *)
  agent : Invocation;
  checks : Checks
}.

Definition set_current_fix (x : option string) : M unit :=
  modify (fun w =>
            let f := fixer w in
            set_fixer (Fixer.mk (Fixer.retry_config f) (Fixer.claude_enabled f)
                                (Fixer._running f) x) w).

Definition write_error (id : string) (f : Error.t -> Error.t) : M unit :=
  modify (fun w => set_errors (update_error id f (errors w)) w).

Definition write_attempt (id : Z) (f : FixAttempt.t -> FixAttempt.t) : M unit :=
  modify (fun w => set_fix_attempts (update_attempt id f (fix_attempts w)) w).

(** [WHERE status = st AND auto_fixable ORDER BY detected_at LIMIT 1] *)
Definition oldest_with (st : ErrorStatus.t) (rows : list Error.t) : option Error.t :=
  hd_error (order_by Error.detected_at
              (filter (fun e => ErrorStatus.eqb (Error.status e) st && Error.auto_fixable e)
                      rows)).

Definition _get_next_error : M (option Error.t) :=
  rows <- gets errors ;;
  match oldest_with ErrorStatus.QUEUED rows with
  | Some error => ret (Some error)
  | None =>
      match oldest_with ErrorStatus.DETECTED rows with
      | Some error =>
          write_error (Error.id error) (Error.set_status ErrorStatus.QUEUED) ;;
          ret (Some (Error.set_status ErrorStatus.QUEUED error))
      | None => ret None
      end
  end.

(** How the first part of [_process_error], up to [FIX_STARTED], ends. *)
Inductive Start : Type :=
| NoSuchError                (* [scalar_one()] raised *)
| Escalated
| NotReady                   (* "Not ready for retry yet" *)
| Begun (error : Error.t) (fix_attempt : FixAttempt.t).

(** The backoff test of [_process_error]; [attempts] is
    [error.fix_attempts]. *)
Definition backoff_elapsed (cfg : RetryConfig.t) (attempts : list FixAttempt.t) : M bool :=
  let attempt_count := Z.of_nat (List.length attempts) in
  if 0 <? attempt_count then
    let delay := RetryConfig.get_delay cfg attempt_count in
    match rev attempts with
    | last_attempt :: _ =>
        match FixAttempt.completed_at last_attempt with
        | Some completed_at =>
            t <- now ;;
            (* [(t - completed_at).total_seconds() < delay] *)
            ret (negb (t - completed_at <? delay * 1000000))
        | None => ret true
        end
    | [] => ret true
    end
  else ret true.

Definition _process_error_start (error_id : string) : M Start :=
  rows <- gets errors ;;
  match find_error error_id rows with
  | None => ret NoSuchError
  | Some error =>
      attempts <- gets (fun w => attempts_of (Error.id error) (fix_attempts w)) ;;
      cfg <- gets (fun w => Fixer.retry_config (fixer w)) ;;
      let attempt_count := Z.of_nat (List.length attempts) in
      if RetryConfig.max_attempts cfg <=? attempt_count then
        write_error (Error.id error) (Error.set_status ErrorStatus.FAILED) ;;
        emit EventType.FIX_ESCALATED
             [ ("error_id", VStr (Error.id error));
               ("error_type", VStr (Error.error_type error));
               ("attempts", VInt attempt_count) ]
             "error_fixer" ;;
        ret Escalated
      else
        ready <- backoff_elapsed cfg attempts ;;
        if negb ready then ret NotReady
        else
          write_error (Error.id error) (Error.set_status ErrorStatus.FIXING) ;;
          set_current_fix (Some (Error.id error)) ;;
          started_at <- now ;;
          attempt_id <- gets (fun w => Z.of_nat (List.length (fix_attempts w)) + 1) ;;
          let fix_attempt :=
            FixAttempt.mk attempt_id (Error.id error) (attempt_count + 1)
                          FixAttemptStatus.IN_PROGRESS None None None None
                          started_at None in
          modify (fun w => set_fix_attempts (fix_attempts w ++ [fix_attempt]) w) ;;
          emit EventType.FIX_STARTED
               [ ("error_id", VStr (Error.id error));
                 ("attempt", VInt (attempt_count + 1));
                 ("max_attempts", VInt (RetryConfig.max_attempts cfg)) ]
               "error_fixer" ;;
          ret (Begun (Error.set_status ErrorStatus.FIXING error) fix_attempt)
  end.

(** [a or b] on strings. *)
Definition str_or (a b : string) : string :=
  if String.eqb a "" then b else a.

Definition _invoke_claude_code (env : AttemptEnv) : M (Try ClaudeResponse) :=
  enabled <- gets (fun w => Fixer.claude_enabled (fixer w)) ;;
  if negb enabled then
    ret (Returns (mkResponse false [] "" (Some "Claude Code CLI is disabled")))
  else
    match agent env with
    | SetupRaised msg => ret (Raises (OtherException msg))
    | Completed returncode stdout stderr modified =>
        ret (Returns (mkResponse (returncode =? 0) modified
                                 (str_or stdout (str_or stderr ""))
                                 (if returncode =? 0 then None else Some stderr)))
    | TimedOut => ret (Raises TimeoutError)
    | RunRaised msg => ret (Returns (mkResponse false [] "" (Some msg)))
    end.

Definition _check_for_error_in_logs (tail : option string)
           (error_type error_message : string) : bool :=
  match tail with
  | None => false
  | Some content => Py.contains error_type content && Py.contains error_message content
  end.

Definition _get_recent_errors (tail : option string) : list string :=
  match tail with
  | None => []
  | Some content =>
      Py.lastn 10
        (map (Py.upto 200)
             (filter (fun line => Py.contains "ERROR" line || Py.contains "CRITICAL" line)
                     (Py.split_nl content)))
  end.

Definition syntax_errors (c : Checks) (files : list string) : list string :=
  map (fun f => "Syntax error in " ++ f)%string
      (filter (fun f => Py.endswith ".py" f && negb (syntax_ok c f)) files).

Definition _verify_fix (error : Error.t) (claude_response : ClaudeResponse) (c : Checks)
  : M (Try VerificationResult) :=
  match syntax_errors c (files_modified claude_response) with
  | (_ :: _) as errs => ret (Returns (mkVerification false false errs false))
  | [] =>
      match restart c with
      | Some msg => ret (Raises (OtherException msg))
      | None =>
          modify (fun w => set_reads (reads w + ready_reads c) w) ;;
          let original_error_found :=
            _check_for_error_in_logs (tail200 c) (Error.error_type error)
                                     (Py.upto 100 (Error.message error)) in
          let new_errors := _get_recent_errors (tail500 c) in
          let resolved := negb original_error_found in
          ret (Returns (mkVerification
                          (true && resolved && (Z.of_nat (List.length new_errors) =? 0))
                          resolved new_errors true))
      end
  end.

(** The body of the [try] statement of [_process_error]. *)
Definition attempt_body (env : AttemptEnv) (error : Error.t) (attempt_id : Z)
           (attempt_number : Z) : M (Try unit) :=
  r <- _invoke_claude_code env ;;
  match r with
  | Raises e => ret (Raises e)
  | Returns claude_response =>
      write_attempt attempt_id
        (FixAttempt.set_response (Some (prompt env))
                                 (Some (Py.upto 50000 (raw_output claude_response)))
                                 (Some (files_modified claude_response))) ;;
      if success claude_response then
        v <- _verify_fix error claude_response (checks env) ;;
        match v with
        | Raises e => ret (Raises e)
        | Returns verification =>
            if fix_successful verification then
              write_attempt attempt_id (FixAttempt.set_status FixAttemptStatus.SUCCESS) ;;
              write_error (Error.id error) (Error.set_status ErrorStatus.RESOLVED) ;;
              resolved_at <- now ;;
              write_error (Error.id error) (Error.set_resolved_at (Some resolved_at)) ;;
              emit EventType.FIX_COMPLETED
                   [ ("error_id", VStr (Error.id error));
                     ("attempt", VInt attempt_number);
                     ("files_modified", VList (files_modified claude_response)) ]
                   "error_fixer" ;;
              ret (Returns tt)
            else
              write_attempt attempt_id (FixAttempt.set_status FixAttemptStatus.FAILED) ;;
              write_attempt attempt_id
                (FixAttempt.set_error_after_fix
                   (Some (Py.join_nl (new_errors_introduced verification)))) ;;
              write_error (Error.id error) (Error.set_status ErrorStatus.QUEUED) ;;
              emit EventType.FIX_FAILED
                   [ ("error_id", VStr (Error.id error));
                     ("attempt", VInt attempt_number);
                     ("reason", VStr "verification_failed");
                     ("new_errors", VList (new_errors_introduced verification)) ]
                   "error_fixer" ;;
              ret (Returns tt)
        end
      else
        write_attempt attempt_id (FixAttempt.set_status FixAttemptStatus.FAILED) ;;
        write_error (Error.id error) (Error.set_status ErrorStatus.QUEUED) ;;
        emit EventType.FIX_FAILED
             [ ("error_id", VStr (Error.id error));
               ("attempt", VInt attempt_number);
               ("reason", VStr (Py.or_else (error_message claude_response)
                                           "claude_invocation_failed")) ]
             "error_fixer" ;;
        ret (Returns tt)
  end.

(** The [try]/[except]/[finally] of [_process_error]. *)
Definition _process_error_run (env : AttemptEnv) (error : Error.t)
           (fix_attempt : FixAttempt.t) : M unit :=
  let attempt_id := FixAttempt.id fix_attempt in
  let attempt_number := FixAttempt.attempt_number fix_attempt in
  r <- attempt_body env error attempt_id attempt_number ;;
  match r with
  | Returns _ => ret tt
  | Raises TimeoutError =>
      write_attempt attempt_id (FixAttempt.set_status FixAttemptStatus.TIMEOUT) ;;
      write_error (Error.id error) (Error.set_status ErrorStatus.QUEUED) ;;
      emit EventType.FIX_FAILED
           [ ("error_id", VStr (Error.id error));
             ("attempt", VInt attempt_number);
             ("reason", VStr "timeout") ]
           "error_fixer"
  | Raises (OtherException _) =>
      write_attempt attempt_id (FixAttempt.set_status FixAttemptStatus.FAILED) ;;
      write_error (Error.id error) (Error.set_status ErrorStatus.QUEUED)
  end ;;
  completed_at <- now ;;
  write_attempt attempt_id (FixAttempt.set_completed_at (Some completed_at)) ;;
  set_current_fix None.

(** [_process_error(error)]: [Raises] only when the row is gone. *)
Definition _process_error (env : AttemptEnv) (error : Error.t) : M (Try unit) :=
  st <- _process_error_start (Error.id error) ;;
  match st with
  | NoSuchError => ret (Raises (OtherException "NoResultFound"))
  | Escalated | NotReady => ret (Returns tt)
  | Begun error' fix_attempt =>
      _process_error_run env error' fix_attempt ;;
      ret (Returns tt)
  end.

(** One iteration of [_fixing_loop]; the result is the [asyncio.sleep]
    that ends it, if any, in seconds. *)
Definition fixing_loop_iteration (env : AttemptEnv) : M (option Z) :=
  next <- _get_next_error ;;
  match next with
  | Some error =>
      r <- _process_error env error ;;
      match r with
      | Returns _ => ret None
      | Raises _ => ret (Some 30)
      end
  | None => ret (Some 10)
  end.

Definition retry_error (error_id : string) : M bool :=
  rows <- gets errors ;;
  match find_error error_id rows with
  | None => ret false
  | Some error =>
      match Error.status error with
      | ErrorStatus.FAILED | ErrorStatus.IGNORED =>
          write_error error_id (Error.set_status ErrorStatus.QUEUED) ;;
          ret true
      | _ => ret false
      end
  end.

Definition ignore_error (error_id ignored_by : string) : M bool :=
  rows <- gets errors ;;
  match find_error error_id rows with
  | None => ret false
  | Some error =>
      write_error error_id (Error.set_status ErrorStatus.IGNORED) ;;
      ignored_at <- now ;;
      write_error error_id (Error.set_ignored (Some ignored_at) (Some ignored_by)) ;;
      emit EventType.ERROR_IGNORED
           [ ("error_id", VStr error_id); ("ignored_by", VStr ignored_by) ]
           "error_fixer" ;;
      ret true
  end.

(** *** The services running side by side

    The fixing loop is one coroutine: between the commit that records a
    new attempt ([_process_error_start]) and the commit that closes it
    ([_process_error_run]) it is suspended on the agent and on the
    checks, and meanwhile the detector and the manual operations may run.
    [in_flight] is the attempt the loop is suspended on. *)

Record Sys : Type := mkSys {
  world : World;
  in_flight : option (Error.t * FixAttempt.t)
}.

Inductive Action : Type :=
| Ingest (content : string)              (* the detector reads new log content *)
| Scan (file : option string) (since : option Z) (limit : Z)
| Poll                                   (* the loop looks for work and may start an attempt *)
| Finish (env : AttemptEnv)              (* the attempt in flight comes to its end *)
| Retry (error_id : string)
| Ignore (error_id ignored_by : string).

(** The first half of [fixing_loop_iteration]. *)
Definition poll : M Start :=
  next <- _get_next_error ;;
  match next with
  | Some error => _process_error_start (Error.id error)
  | None => ret NotReady
  end.

(** [None] when the action cannot happen in this state: the loop does not
    poll while an attempt is in flight, and nothing finishes otherwise. *)
Definition act (a : Action) (s : Sys) : option Sys :=
  match a, in_flight s with
  | Ingest content, fl => Some (mkSys (exec (_process_log_content content) (world s)) fl)
  | Scan file since limit, fl =>
      Some (mkSys (exec (scan_log_file file since limit) (world s)) fl)
  | Retry error_id, fl => Some (mkSys (exec (retry_error error_id) (world s)) fl)
  | Ignore error_id ignored_by, fl =>
      Some (mkSys (exec (ignore_error error_id ignored_by) (world s)) fl)
  | Poll, None =>
      let (st, w) := poll (world s) in
      Some (mkSys w match st with
                    | Begun error fix_attempt => Some (error, fix_attempt)
                    | _ => None
                    end)
  | Poll, Some _ => None
  | Finish env, Some (error, fix_attempt) =>
      Some (mkSys (exec (_process_error_run env error fix_attempt) (world s)) None)
  | Finish _, None => None
  end.

Fixpoint run_actions (l : list Action) (s : Sys) : option Sys :=
  match l with
  | [] => Some s
  | a :: l' =>
      match act a s with
      | Some s' => run_actions l' s'
      | None => None
      end
  end.

End Services.

Arguments Returns {A} a.
Arguments Raises {A} e.

(** ** Following the log file, starting and stopping the detector, and
       the retry route *)

Section Monitoring.

Variable utcnow : nat -> Z.
Variable uuid4 : nat -> string.

(** The log file is given as the services find it: [None] when it does
    not exist, otherwise its text.  Offsets count characters, which is
    what [st_size], [seek] and [tell] count for a log of one-byte
    characters. *)

Definition set_last_position (pos : Z) : M unit :=
  modify (fun w =>
            let d := detector w in
            set_detector (Detector.mk (Detector._running d) pos
                                      (Detector._context_buffer d)
                                      (Detector._context_size d)) w).

Definition _get_file_size (file : option string) : Z :=
  match file with
  | Some content => Z.of_nat (String.length content)
  | None => 0
  end.

(** [_read_new_content]: [seek] to [_last_position], [read] to the end,
    and keep [tell()], which is the end of the file, or the position
    sought when that lies beyond it. *)
Definition _read_new_content (content : string) : M string :=
  pos <- gets (fun w => Detector._last_position (detector w)) ;;
  set_last_position (Z.max pos (Z.of_nat (String.length content))) ;;
  ret (Py.drop (Z.to_nat pos) content).

Definition _check_log_file (file : option string) : M unit :=
  match file with
  | None => ret tt
  | Some content =>
      let current_size := Z.of_nat (String.length content) in
      last <- gets (fun w => Detector._last_position (detector w)) ;;
      (* "Handle log rotation" *)
      (if current_size <? last then set_last_position 0 else ret tt) ;;
      last <- gets (fun w => Detector._last_position (detector w)) ;;
      if current_size =? last then ret tt
      else
        new_content <- _read_new_content content ;;
        if negb (String.eqb new_content "")
        then _process_log_content utcnow uuid4 new_content
        else ret tt
  end.

(** [ErrorDetectorService.start] and [stop]; the task that runs
    [_monitoring_loop] is not part of the state. *)
Definition ErrorDetectorService_start (file : option string) : M unit :=
  running <- gets (fun w => Detector._running (detector w)) ;;
  if running then ret tt
  else
    set_running true ;;
    set_last_position (_get_file_size file) ;;
    emit utcnow EventType.STATUS_CHANGE
         [ ("component", VStr "error_detector"); ("status", VStr "running") ]
         "error_detector".

Definition ErrorDetectorService_stop : M unit :=
  set_running false ;;
  emit utcnow EventType.STATUS_CHANGE
       [ ("component", VStr "error_detector"); ("status", VStr "stopped") ]
       "error_detector".


End Monitoring.

(** ** [ErrorFixerService._get_code_context] *)

(** [s.rstrip()] *)
Fixpoint rstrip (s : string) : string :=
  match s with
  | EmptyString => EmptyString
  | String c s' =>
      match rstrip s' with
      | EmptyString => if Py.isspace c then EmptyString else String c EmptyString
      | t => String c t
      end
  end.

(** The conversion [{i:4d}] of an f-string: the decimal digits, padded
    with spaces on the left to a width of 4. *)
Definition format_4d (i : Z) : string :=
  let digits := NilZero.string_of_int (Z.to_int i) in
  (String.concat "" (repeat " " (4 - String.length digits)) ++ digits)%string.

(** [l[start:stop]] for indices that are not negative *)
Definition slice {A} (start stop : Z) (l : list A) : list A :=
  firstn (Z.to_nat (stop - start)) (skipn (Z.to_nat start) l).

(** [enumerate(l, start=i)] *)
Fixpoint enumerate {A} (i : Z) (l : list A) : list (Z * A) :=
  match l with
  | [] => []
  | x :: l' => (i, x) :: enumerate (i + 1) l'
  end.

(** The list [context_lines] that [_get_code_context] builds from the
    lines of the file, for a line number that is not negative. *)
Definition context_lines (lines : list string) (line_number n : Z) : list string :=
  let start := Z.max 0 (line_number - n - 1) in
  let end_ := Z.min (Z.of_nat (List.length lines)) (line_number + n) in
  map (fun p : Z * string =>
         let (i, line) := p in
         ((if (i =? line_number)%Z then ">>>" else "   ")
            ++ " " ++ format_4d i ++ ": " ++ rstrip line)%string)
      (enumerate (start + 1) (slice start end_ lines)).

(** [file] is what [readlines] gives, or [None] when the file does not
    exist or cannot be read. *)
Definition _get_code_context (file : option (list string)) (line_number n : Z) : string :=
  match file with
  | None => ""
  | Some lines => Py.join_nl (context_lines lines line_number n)
  end.

(** ** Notions used in the statements *)

(** The number of attempts recorded for an error, as [_process_error]
    counts them. *)
Definition attempt_count (w : World) (error_id : string) : Z :=
  Z.of_nat (List.length (attempts_of error_id (fix_attempts w))).

(** The events of the fixing loop, as [_process_error] builds them. *)
Definition escalated_event (e : Error.t) (count ts : Z) : Event.t :=
  Event.mk EventType.FIX_ESCALATED
           [ ("error_id", VStr (Error.id e));
             ("error_type", VStr (Error.error_type e));
             ("attempts", VInt count) ]
           ts "error_fixer".

Definition started_event (e : Error.t) (number max ts : Z) : Event.t :=
  Event.mk EventType.FIX_STARTED
           [ ("error_id", VStr (Error.id e));
             ("attempt", VInt number);
             ("max_attempts", VInt max) ]
           ts "error_fixer".









(** [m] neither reads nor writes the detector's [_running] flag. *)
Definition ignores_running {A} (m : M A) : Prop :=
  forall b w, m (with_running b w) = (eval m w, with_running b (exec m w)).

(** The pair of an event type and a handler is among the subscriptions. *)
Definition subscribed (event_type : EventType.t) (handler : EventBus.EventHandler)
           (b : EventBus.t) : bool :=
  existsb (fun p => EventType.eqb (fst p) event_type && Nat.eqb (snd p) handler)
          (EventBus._subscribers b).

(** Every run of [m] takes a state to one that is [R]-related to it. *)
Definition steps {A} (R : World -> World -> Prop) (m : M A) : Prop :=
  forall w, R w (exec m w).

(** The part [proj] of the state is the same. *)
Definition same {X} (proj : World -> X) (w w' : World) : Prop := proj w' = proj w.

(** What detection records of an error and nothing changes later: all
    but the status and the resolved and ignored marks. *)
Definition detection (e : Error.t) :=
  (Error.id e, Error.error_type e, Error.severity e, Error.category e, Error.message e,
   Error.stack_trace e, Error.module_name e, Error.file_path e, Error.line_number e,
   Error.context_before e, Error.raw_log e, Error.auto_fixable e, Error.detected_at e).

(** The lengths to which [_create_error] cuts the message and the text
    of an error. *)
Definition within_bounds (e : Error.t) : Prop :=
  Z.of_nat (String.length (Error.message e)) <= 2000
  /\ Z.of_nat (String.length (Error.raw_log e)) <= 10000.

(** The table of errors has kept its rows, in place and with what was
    detected, and may have more at the end, each within the bounds. *)
Definition grown (w w' : World) : Prop :=
  exists added,
    map detection (errors w') = map detection (errors w) ++ map detection added
    /\ Forall within_bounds added.

(** A row that the fixing loop may pick: auto-fixable, with this status. *)
Definition candidate (st : ErrorStatus.t) (e : Error.t) : bool :=
  ErrorStatus.eqb (Error.status e) st && Error.auto_fixable e.

(** A relation between states that every operation of the detector and
    every manual operation respects step by step: it is a preorder, it
    holds when the clock or the identifier source is read, an event is
    published, the detector's flag or context buffer is written, a row
    within the bounds is appended to the table of errors, or rows are
    rewritten in what is not [detection]. *)
Record frame (R : World -> World -> Prop) : Prop := mkFrame {
  frame_refl : forall w, R w w;
  frame_trans : forall w1 w2 w3, R w1 w2 -> R w2 w3 -> R w1 w3;
  frame_reads : forall w n, R w (set_reads n w);
  frame_draws : forall w n, R w (set_draws n w);
  frame_bus : forall w b d, R w (set_bus b d w);
  frame_detector :
    forall w running buf,
      R w (set_detector (Detector.mk running (Detector._last_position (detector w)) buf
                                     (Detector._context_size (detector w))) w);
  frame_append : forall w e, within_bounds e -> R w (set_errors (errors w ++ [e]) w);
  frame_update :
    forall w id f, (forall e, detection (f e) = detection e) ->
                   R w (set_errors (update_error id f (errors w)) w)
}.

(** What follows the first occurrence of [p] in [s], if there is one. *)
Fixpoint after_first (p s : string) : option string :=
  if Py.startswith p s then Some (Py.drop (String.length p) s)
  else match s with
       | EmptyString => None
       | String _ s' => after_first p s'
       end.

(** The text up to the first newline. *)
Fixpoint first_line (s : string) : string :=
  match s with
  | EmptyString => EmptyString
  | String c s' => if Ascii.eqb c Py.NL then EmptyString else String c (first_line s')
  end.

(** ** Concrete surroundings used in the examples *)

Module Scenario.

(** A clock that advances by [step] microseconds at each reading. *)
Definition clock (step : Z) (n : nat) : Z := 1700000000000000 + Z.of_nat n * step.
Definition second : Z := 1000000.

(** Identifiers [a], [b], [c], ... *)
Definition ids (n : nat) : string := String (ascii_of_nat (97 + n)) "".

Definition nl : string := String Py.NL "".

Definition value_error_line : string :=
  "2024-01-01 12:00:00,123 42 ERROR db odoo.http: ValueError: bad value".
Definition key_error_line : string :=
  "2024-01-01 12:00:01,456 42 ERROR db odoo.http: KeyError: 'missing'".

(** Checks that find nothing wrong. *)
Definition quiet : Checks := mkChecks (fun _ => true) None 1 (Some "") (Some "").

(** The agent exits with status 1. *)
Definition agent_fails : AttemptEnv :=
  mkAttemptEnv "fix it" (Completed 1 "" "boom" []) quiet.

(** A fresh process with one handler subscribed to every event. *)
Definition fresh : World :=
  let w := boot RetryConfig.default true in
  set_bus (EventBus.subscribe_all 0%nat (bus w)) (delivered w) w.

Definition event_types (w : World) : list EventType.t :=
  map Event.type (EventBus._history (bus w)).

End Scenario.

(** * Properties *)

(** ** Equality tests of the enumerations *)

Lemma ErrorStatus_eqb_eq (a b : ErrorStatus.t) : ErrorStatus.eqb a b = true <-> a = b.
Proof. destruct a, b; simpl; split; intro H; congruence. Qed.


Lemma EventType_eqb_eq (a b : EventType.t) : EventType.eqb a b = true <-> a = b.
Proof.
  unfold EventType.eqb; split.
  - destruct a, b; simpl; intro H; solve [reflexivity | discriminate H].
  - intros ->. apply String.eqb_refl.
Qed.

(** ** The repository's unit tests, replayed on the embedding *)

(** [test_error_detector.py], [TestErrorPatterns]: each line is found by
    the pattern registered under its name. *)
Example test_error_patterns :
  map (fun p : string * string =>
         option_map fst (first_pattern
                           (filter (fun x => String.eqb (fst x) (snd p)) Patterns.ERROR_PATTERNS)
                           (fst p)))
      [ ("ImportError: No module named 'missing'", "ImportError");
        ("ModuleNotFoundError: No module named 'xyz'", "ModuleNotFoundError");
        ("SyntaxError: invalid syntax", "SyntaxError");
        ("KeyError: 'missing_key'", "KeyError");
        ("psycopg2.IntegrityError: duplicate key", "psycopg2.IntegrityError");
        ("odoo.exceptions.UserError: Permission denied", "UserError") ]
  = [ Some ("ImportError", ErrorCategory.PYTHON, ErrorSeverity.HIGH, true);
      Some ("ModuleNotFoundError", ErrorCategory.DEPENDENCY, ErrorSeverity.HIGH, true);
      Some ("SyntaxError", ErrorCategory.PYTHON, ErrorSeverity.CRITICAL, true);
      Some ("KeyError", ErrorCategory.PYTHON, ErrorSeverity.MEDIUM, true);
      Some ("psycopg2.IntegrityError", ErrorCategory.DATABASE, ErrorSeverity.HIGH, false);
      Some ("UserError", ErrorCategory.ODOO, ErrorSeverity.LOW, false) ].
Proof. vm_compute. reflexivity. Qed.

(** [TestTracebackParsing.test_extract_multiple_frames] and
    [TestModuleExtraction]: three frames are found, the last one is the
    location, and the module is the directory under [custom_addons]. *)
Example test_traceback_and_module :
  let q := Patterns.DQ in
  let nl := Scenario.nl in
  let traceback :=
    ("File " ++ q ++ "/odoo/odoo/api.py" ++ q ++ ", line 100, in wrapper" ++ nl
     ++ "    return func(self)" ++ nl
     ++ "File " ++ q ++ "/home/odoo/custom_addons/sale_custom/models/sale.py" ++ q
     ++ ", line 42, in compute" ++ nl
     ++ "    return self._inner()" ++ nl
     ++ "File " ++ q ++ "/home/odoo/custom_addons/sale_custom/models/sale.py" ++ q
     ++ ", line 50, in _inner" ++ nl)%string in
  List.length (Re.findall Patterns.TRACEBACK_FILE_PATTERN traceback) = 3%nat
  /\ _extract_location traceback
     = (Some "/home/odoo/custom_addons/sale_custom/models/sale.py", Some 50)
  /\ _extract_module_name traceback = Some "sale_custom"
  /\ _extract_module_name "/opt/odoo/addons/hr_extension/__manifest__.py"
     = Some "hr_extension".
Proof. vm_compute. repeat split. Qed.

(** [test_error_fixer.py], [TestRetryConfig]: the backoff table and the cap. *)
Example test_exponential_backoff :
  map (RetryConfig.get_delay RetryConfig.default) [1; 2; 3; 4; 5] = [60; 120; 240; 480; 960]
  /\ RetryConfig.get_delay (RetryConfig.mk 5 100 2 150) 2 = 150.
Proof. vm_compute. split; reflexivity. Qed.

(** ** Retry delay *)

Section Backoff.

Import RetryConfig.




End Backoff.



(** ** Event bus history *)

Section History.

Import EventBus.

Lemma tl_skipn {A} (n : nat) (l : list A) : tl (skipn n l) = skipn (S n) l.
Proof.
  revert l; induction n as [| n IH]; intros [| x l]; try reflexivity.
  exact (IH l).
Qed.

(** One [publish] keeps the history equal to the last [size] events of
    everything published so far. *)
Lemma record_suffix (size : Z) (all : list Event.t) (e : Event.t) :
  0 <= size ->
  record e (skipn (List.length all - Z.to_nat size) all) size
  = skipn (List.length (all ++ [e]) - Z.to_nat size) (all ++ [e]).
Proof.
  intros Hs. unfold record, Py.pop0.
  set (n := List.length all). set (k := Z.to_nat size).
  assert (Happ : skipn (n - k) all ++ [e] = skipn (n - k) (all ++ [e])).
  { rewrite skipn_app. replace (n - k - List.length all)%nat with 0%nat by (subst n; lia).
    reflexivity. }
  rewrite Happ, length_app. simpl List.length. fold n.
  rewrite length_skipn, length_app. simpl List.length. fold n.
  destruct (size <? Z.of_nat (n + 1 - (n - k))) eqn:E.
  - apply Z.ltb_lt in E. rewrite tl_skipn. f_equal. lia.
  - apply Z.ltb_ge in E. f_equal. lia.
Qed.

Lemma publish_all_app (xs ys : list Event.t) (b : EventBus.t) :
  publish_all (xs ++ ys) b = publish_all ys (publish_all xs b).
Proof. unfold publish_all. apply fold_left_app. Qed.

Lemma publish_all_size (events : list Event.t) (b : EventBus.t) :
  _history_size (publish_all events b) = _history_size b.
Proof.
  revert b; induction events as [| e events IH]; intro b; [reflexivity |].
  change (publish_all (e :: events) b) with (publish_all events (fst (publish e b))).
  now rewrite IH.
Qed.

Lemma publish_all_history (size : Z) (events : list Event.t) :
  0 <= size ->
  _history (publish_all events (init size))
  = skipn (List.length events - Z.to_nat size) events.
Proof.
  intros Hs. induction events as [| e events IH] using rev_ind; [reflexivity |].
  rewrite publish_all_app.
  change (publish_all [e] ?b) with (fst (publish e b)).
  unfold publish; simpl fst; simpl _history.
  rewrite publish_all_size, IH. simpl _history_size.
  now apply record_suffix.
Qed.

(** C7: after any run of [publish] calls on a bus created with a history
    size [size >= 0], the history holds at most [size] events, and they are
    the last [size] events published, in publish order (so the oldest are
    the ones evicted); with size 100 and 150 events published,
    [get_history] with limit 100 returns exactly the last 100. *)
Theorem history_is_most_recent (size : Z) (events : list Event.t) :
  0 <= size ->
  let b := publish_all events (init size) in
  Z.of_nat (List.length (_history b)) <= size
  /\ _history b = skipn (List.length events - Z.to_nat size) events
  /\ (exists evicted, events = evicted ++ _history b)
  /\ (size = default_history_size -> List.length events = 150%nat ->
      get_history None 100 b = skipn 50 events
      /\ List.length (get_history None 100 b) = 100%nat).
Proof.
  intros Hs b.
  assert (H : _history b = skipn (List.length events - Z.to_nat size) events)
    by (now apply publish_all_history).
  split; [| split; [exact H | split]].
  - rewrite H, length_skipn. lia.
  - exists (firstn (List.length events - Z.to_nat size) events).
    rewrite H. symmetry. apply firstn_skipn.
  - intros -> Hlen.
    assert (Hh : _history b = skipn 50 events).
    { rewrite H, Hlen. reflexivity. }
    assert (Hl : List.length (_history b) = 100%nat).
    { rewrite Hh, length_skipn, Hlen. reflexivity. }
    assert (Hg : get_history None 100 b = _history b).
    { unfold get_history, Py.lastn. rewrite Hl. reflexivity. }
    rewrite Hg. split; assumption.
Qed.

End History.

(** 150 heartbeats through a bus of the default size: the last 100 are
    retrievable, the first 50 are gone. *)
Lemma history_is_most_recent_witness :
  let e := fun n => Event.mk EventType.HEARTBEAT [("n", VInt (Z.of_nat n))] (Z.of_nat n) "test" in
  let events := map e (seq 1 150) in
  let b := EventBus.publish_all events (EventBus.init 100) in
  EventBus.get_history None 100 b = map e (seq 51 100)
  /\ List.length (EventBus.get_history None 100 b) = 100%nat.
Proof.
  intros e events b.
  assert (Hsize : 0 <= 100) by lia.
  exact (proj2 (proj2 (proj2 (history_is_most_recent 100 events Hsize))) eq_refl eq_refl).
Defined.

(** ** Rows and their updates *)

Lemma update_error_fuse (id : string) (f g : Error.t -> Error.t) (rows : list Error.t) :
  (forall e, Error.id (g e) = Error.id e) ->
  update_error id f (update_error id g rows) = update_error id (fun e => f (g e)) rows.
Proof.
  intros Hg. unfold update_error. rewrite map_map. apply map_ext. intro e.
  destruct (String.eqb (Error.id e) id) eqn:E.
  - now rewrite Hg, E.
  - now rewrite E.
Qed.

Lemma find_update_error (id : string) (f : Error.t -> Error.t) (rows : list Error.t) :
  (forall e, Error.id (f e) = Error.id e) ->
  find_error id (update_error id f rows) = option_map f (find_error id rows).
Proof.
  intros Hf. unfold find_error, update_error.
  induction rows as [| e rows IH]; [reflexivity |]. simpl.
  destruct (String.eqb (Error.id e) id) eqn:E.
  - now rewrite Hf, E.
  - now rewrite E.
Qed.

Lemma update_error_other (id : string) (f : Error.t -> Error.t) (rows : list Error.t) (e : Error.t) :
  In e rows -> Error.id e <> id -> In e (update_error id f rows).
Proof.
  intros Hin Hne. unfold update_error. apply in_map_iff. exists e. split; [| exact Hin].
  destruct (String.eqb (Error.id e) id) eqn:E; [| reflexivity].
  apply String.eqb_eq in E. contradiction.
Qed.


(** Unfolds the monad and the primitive actions, leaving the tables, the
    bus and the counters as they are written. *)
Ltac run_monad :=
  cbv beta iota zeta delta
    [exec eval bind gets ret modify now fresh_uuid publish emit
     write_error write_attempt set_current_fix set_running EventBus.publish fst snd].

Ltac fields :=
  cbn [errors fix_attempts bus delivered reads draws detector fixer
       set_errors set_fix_attempts set_bus set_reads set_draws set_detector set_fixer
       Fixer._current_fix Fixer.retry_config Fixer.claude_enabled Fixer._running
       EventBus._history EventBus._history_size EventBus._subscribers
       EventBus._global_subscribers world in_flight fst snd].

(** ** Manual operations *)

Section Manual.

Variable utcnow : nat -> Z.

(** C2, as the code has it: [ignore_error] returns true exactly when a row
    with that id exists, whatever its status, terminal ones included; the
    row then becomes IGNORED with the actor and the time of the call, and
    one ERROR_IGNORED event is published; when no such row exists it
    returns false and changes nothing. *)
Theorem ignore_error_succeeds_iff_found (w : World) (error_id ignored_by : string) :
  let ok := eval (ignore_error utcnow error_id ignored_by) w in
  let w' := exec (ignore_error utcnow error_id ignored_by) w in
  let ignored := fun e => Error.set_ignored (Some (utcnow (reads w))) (Some ignored_by)
                                           (Error.set_status ErrorStatus.IGNORED e) in
  (ok = true <-> exists e, find_error error_id (errors w) = Some e)
  /\ (forall e, find_error error_id (errors w) = Some e ->
      errors w' = update_error error_id ignored (errors w)
      /\ find_error error_id (errors w') = Some (ignored e)
      /\ Error.status (ignored e) = ErrorStatus.IGNORED
      /\ Error.ignored_by (ignored e) = Some ignored_by
      /\ Error.ignored_at (ignored e) = Some (utcnow (reads w))
      /\ EventBus._history (bus w')
         = EventBus.record
             (Event.mk EventType.ERROR_IGNORED
                       [("error_id", VStr error_id); ("ignored_by", VStr ignored_by)]
                       (utcnow (S (reads w))) "error_fixer")
             (EventBus._history (bus w)) (EventBus._history_size (bus w)))
  /\ (find_error error_id (errors w) = None -> ok = false /\ w' = w).
Proof.
  intros ok w' ignored. subst ok w'. unfold ignore_error. run_monad.
  destruct (find_error error_id (errors w)) as [e |] eqn:E; run_monad; fields.
  - split; [split; [eauto | reflexivity] |]. split; [| discriminate].
    intros e' [= <-].
    assert (Hup : update_error error_id
                    (Error.set_ignored (Some (utcnow (reads w))) (Some ignored_by))
                    (update_error error_id (Error.set_status ErrorStatus.IGNORED) (errors w))
                  = update_error error_id ignored (errors w))
      by (apply (update_error_fuse error_id
                   (Error.set_ignored (Some (utcnow (reads w))) (Some ignored_by))
                   (Error.set_status ErrorStatus.IGNORED)); reflexivity).
    rewrite Hup. repeat split.
    rewrite find_update_error by reflexivity. now rewrite E.
  - split; [split; [discriminate | intros [e He]; discriminate] |].
    split; [discriminate |]. intros _. split; [reflexivity | now destruct w].
Qed.

End Manual.

(** C2 as stated fails: an error that is already RESOLVED is ignored all the
    same; the call returns true and the row becomes IGNORED. *)
Lemma ignore_error_on_resolved_counterexample :
  let e := Error.mk "e1" "ValueError" ErrorSeverity.MEDIUM ErrorCategory.PYTHON
                    "bad value" None None None None [] "ValueError: bad value"
                    ErrorStatus.RESOLVED true 100 (Some 200) None None in
  let w := set_errors [e] Scenario.fresh in
  let r := ignore_error (Scenario.clock Scenario.second) "e1" "alice" w in
  ErrorStatus.active (Error.status e) = false
  /\ fst r = true
  /\ map Error.status (errors (snd r)) = [ErrorStatus.IGNORED]
  /\ errors (snd r) <> errors w.
Proof.
  repeat split; try reflexivity. vm_compute. discriminate.
Qed.

(** ** The bulk scan and the event bus *)

(** C1 fails on the code: [scan_log_file] clears [_running] "to disable
    event emission", but [_create_error] never reads that flag.  Scanning a
    log that holds one ValueError line, on a fresh process with one global
    subscriber, records the error, publishes ERROR_DETECTED and calls the
    subscriber with it. *)
Lemma scan_log_file_publishes_error_detected :
  let clock := Scenario.clock Scenario.second in
  let r := scan_log_file clock Scenario.ids (Some Scenario.value_error_line) None 100
                         Scenario.fresh in
  map Error.error_type (fst r) = ["ValueError"]
  /\ Scenario.event_types Scenario.fresh = []
  /\ Scenario.event_types (snd r) = [EventType.ERROR_DETECTED]
  /\ map (fun d => (fst d, Event.type (snd d))) (delivered (snd r))
     = [(0%nat, EventType.ERROR_DETECTED)].
Proof. vm_compute. repeat split. Qed.

(** ** Selection of the next error *)


(** ** Escalation *)


(** ** Deduplication *)

Section Deduplication.

Variable utcnow : nat -> Z.
Variable uuid4 : nat -> string.

Lemma duplicate_found (rows : list Error.t) (error_type : string)
      (module_name : option string) (cutoff : Z) (e : Error.t) :
  In e rows ->
  Error.error_type e = error_type ->
  (forall m, module_name = Some m -> Error.module_name e = Some m) ->
  ErrorStatus.active (Error.status e) = true ->
  cutoff < Error.detected_at e ->
  existsb (duplicate_of error_type module_name cutoff) rows = true.
Proof.
  intros Hin Hty Hmod Hact Hrecent. apply existsb_exists. exists e. split; [exact Hin |].
  unfold duplicate_of. rewrite Hty, String.eqb_refl, Hact.
  apply Z.ltb_lt in Hrecent. rewrite Hrecent. simpl.
  destruct module_name as [m |]; [| reflexivity].
  rewrite (Hmod m eq_refl). destruct (Py.truthy (Some m)); [| reflexivity].
  apply String.eqb_refl.
Qed.

Lemma create_suppressed (w : World) (error_type : string) (category : ErrorCategory.t)
      (severity : ErrorSeverity.t) (auto_fixable : bool) (message raw_log : string)
      (context_before : list string) (e : Error.t) :
  In e (errors w) ->
  Error.error_type e = error_type ->
  (forall m, _extract_module_name raw_log = Some m -> Error.module_name e = Some m) ->
  ErrorStatus.active (Error.status e) = true ->
  utcnow (reads w) - one_minute < Error.detected_at e ->
  _create_error utcnow uuid4 error_type category severity auto_fixable message raw_log
                context_before w
  = (None, set_reads (S (reads w)) w).
Proof.
  intros Hin Hty Hmod Hact Hrecent.
  unfold _create_error, _is_duplicate_error.
  destruct (_extract_location raw_log) as [file_path line_number].
  run_monad; fields.
  now rewrite (duplicate_found _ _ _ _ e Hin Hty Hmod Hact Hrecent).
Qed.

(** C6: when the table already holds an error of the same type (and of
    the same module, when the text names one) that is DETECTED, QUEUED or
    FIXING and was detected less than 60 seconds before the check,
    [_create_error] returns [None]: no row is added and nothing is
    published, only the clock has been read.  Hence two calls for the same
    type, message and text, the second checked less than 60 seconds after
    the first was recorded, add exactly one row, and the second publishes
    nothing. *)
Theorem duplicate_within_a_minute_is_suppressed
        (w : World) (error_type : string) (category : ErrorCategory.t)
        (severity : ErrorSeverity.t) (auto_fixable : bool) (message raw_log : string)
        (context_before : list string) :
  let create := _create_error utcnow uuid4 error_type category severity auto_fixable
                              message raw_log context_before in
  (forall e,
      In e (errors w) ->
      Error.error_type e = error_type ->
      (forall m, _extract_module_name raw_log = Some m -> Error.module_name e = Some m) ->
      ErrorStatus.active (Error.status e) = true ->
      utcnow (reads w) - one_minute < Error.detected_at e ->
      create w = (None, set_reads (S (reads w)) w))
  /\ (eval (_is_duplicate_error utcnow error_type message (_extract_module_name raw_log)) w
      = false ->
      utcnow (3 + reads w) - one_minute < utcnow (1 + reads w) ->
      exists e1,
        eval create w = Some e1
        /\ Error.status e1 = ErrorStatus.DETECTED
        /\ errors (exec create w) = errors w ++ [e1]
        /\ eval create (exec create w) = None
        /\ errors (exec create (exec create w)) = errors w ++ [e1]
        /\ bus (exec create (exec create w)) = bus (exec create w)
        /\ delivered (exec create (exec create w)) = delivered (exec create w)).
Proof.
  intro create. split.
  - intros e. apply create_suppressed.
  - intros Hfresh Hclock.
    set (e1 := Error.mk (uuid4 (draws w)) error_type severity category
                        (Py.upto 2000 message) (_extract_stack_trace raw_log)
                        (_extract_module_name raw_log)
                        (fst (_extract_location raw_log)) (snd (_extract_location raw_log))
                        context_before (Py.upto 10000 raw_log) ErrorStatus.DETECTED
                        auto_fixable (utcnow (S (reads w))) None None None).
    assert (H1 : eval create w = Some e1 /\ errors (exec create w) = errors w ++ [e1]
                 /\ reads (exec create w) = (3 + reads w)%nat).
    { subst create e1. unfold _create_error.
      destruct (_extract_location raw_log) as [file_path line_number].
      revert Hfresh. unfold _is_duplicate_error. run_monad; fields.
      intros ->. run_monad; fields. repeat split. }
    destruct H1 as (Hr1 & He1 & Hreads).
    assert (H2 : create (exec create w)
                 = (None, set_reads (S (reads (exec create w))) (exec create w))).
    { apply (create_suppressed _ _ _ _ _ _ _ _ e1).
      - rewrite He1. apply in_or_app. right. now left.
      - reflexivity.
      - intros m Hm. exact Hm.
      - reflexivity.
      - rewrite Hreads. exact Hclock. }
    assert (Hev : eval create (exec create w) = None)
      by (unfold eval at 1; now rewrite H2).
    assert (Hex : exec create (exec create w)
                  = set_reads (S (reads (exec create w))) (exec create w))
      by (unfold exec at 1; now rewrite H2).
    exists e1. rewrite Hex, Hev. fields.
    repeat split; try assumption; reflexivity.
Qed.

End Deduplication.

(** Two identical ValueError blocks, one second apart on the clock, on a
    fresh process: one row. *)
Lemma duplicate_within_a_minute_is_suppressed_witness :
  let create := _create_error (Scenario.clock Scenario.second) Scenario.ids
                              "ValueError" ErrorCategory.PYTHON ErrorSeverity.MEDIUM true
                              "bad value" Scenario.value_error_line [] in
  exists e1,
    eval create Scenario.fresh = Some e1
    /\ Error.status e1 = ErrorStatus.DETECTED
    /\ errors (exec create Scenario.fresh) = errors Scenario.fresh ++ [e1]
    /\ eval create (exec create Scenario.fresh) = None
    /\ errors (exec create (exec create Scenario.fresh)) = errors Scenario.fresh ++ [e1]
    /\ bus (exec create (exec create Scenario.fresh)) = bus (exec create Scenario.fresh)
    /\ delivered (exec create (exec create Scenario.fresh))
       = delivered (exec create Scenario.fresh).
Proof.
  intro create.
  refine (proj2 (duplicate_within_a_minute_is_suppressed
                   (Scenario.clock Scenario.second) Scenario.ids Scenario.fresh
                   "ValueError" ErrorCategory.PYTHON ErrorSeverity.MEDIUM true
                   "bad value" Scenario.value_error_line []) _ _).
  - vm_compute. reflexivity.
  - vm_compute. reflexivity.
Defined.

(** ** One fix attempt *)

Lemma set_reads_same (w : World) : set_reads (reads w) w = w.
Proof. now destruct w. Qed.


Lemma find_error_in (id : string) (rows : list Error.t) (e : Error.t) :
  find_error id rows = Some e -> In e rows.
Proof. unfold find_error. intros H. now apply find_some in H. Qed.

Ltac simp_run :=
  repeat progress
    (run_monad; fields;
     cbn [negb andb success files_modified raw_output error_message
          fix_successful new_errors_introduced]).

Section Attempt.

Variable utcnow : nat -> Z.

(** The backoff test only reads the clock, at most once. *)
Lemma backoff_elapsed_world (cfg : RetryConfig.t) (attempts : list FixAttempt.t) (w : World) :
  exec (backoff_elapsed utcnow cfg attempts) w = w
  \/ exec (backoff_elapsed utcnow cfg attempts) w = set_reads (S (reads w)) w.
Proof.
  unfold backoff_elapsed.
  destruct (0 <? Z.of_nat (List.length attempts)); [| now left].
  destruct (rev attempts) as [| last_attempt rest]; [now left |].
  destruct (FixAttempt.completed_at last_attempt); [now right | now left].
Qed.

(** What the first part of [_process_error] does, by the way it ends. *)
Lemma start_spec (w : World) (error_id : string) :
  let max := RetryConfig.max_attempts (Fixer.retry_config (fixer w)) in
  let size := EventBus._history_size (bus w) in
  match _process_error_start utcnow error_id w with
  | (NoSuchError, w1) => find_error error_id (errors w) = None /\ w1 = w
  | (Escalated, w1) =>
      exists e,
        find_error error_id (errors w) = Some e
        /\ max <= attempt_count w (Error.id e)
        /\ errors w1 = update_error (Error.id e) (Error.set_status ErrorStatus.FAILED) (errors w)
        /\ fix_attempts w1 = fix_attempts w
        /\ fixer w1 = fixer w
        /\ EventBus._history (bus w1)
           = EventBus.record
               (escalated_event e (attempt_count w (Error.id e)) (utcnow (reads w)))
               (EventBus._history (bus w)) size
  | (NotReady, w1) =>
      exists e,
        find_error error_id (errors w) = Some e
        /\ attempt_count w (Error.id e) < max
        /\ (w1 = w \/ w1 = set_reads (S (reads w)) w)
  | (Begun error' fix_attempt, w1) =>
      exists e t,
        find_error error_id (errors w) = Some e
        /\ attempt_count w (Error.id e) < max
        /\ error' = Error.set_status ErrorStatus.FIXING e
        /\ fix_attempt
           = FixAttempt.mk (Z.of_nat (List.length (fix_attempts w)) + 1) (Error.id e)
                           (attempt_count w (Error.id e) + 1)
                           FixAttemptStatus.IN_PROGRESS None None None None t None
        /\ fix_attempts w1 = fix_attempts w ++ [fix_attempt]
        /\ errors w1 = update_error (Error.id e) (Error.set_status ErrorStatus.FIXING) (errors w)
        /\ Fixer._current_fix (fixer w1) = Some (Error.id e)
        /\ Fixer.retry_config (fixer w1) = Fixer.retry_config (fixer w)
        /\ Fixer.claude_enabled (fixer w1) = Fixer.claude_enabled (fixer w)
        /\ EventBus._history_size (bus w1) = size
        /\ EventBus._history (bus w1)
           = EventBus.record
               (started_event e (attempt_count w (Error.id e) + 1) max (utcnow (Nat.pred (reads w1))))
               (EventBus._history (bus w)) size
  end.
Proof.
  intros max size. unfold _process_error_start. simp_run.
  destruct (find_error error_id (errors w)) as [e |] eqn:E; simp_run; [| now split].
  fold (attempt_count w (Error.id e)). fold max.
  destruct (max <=? attempt_count w (Error.id e)) eqn:Hmax; simp_run.
  - exists e. apply Z.leb_le in Hmax. now repeat split.
  - apply Z.leb_gt in Hmax.
    pose proof (backoff_elapsed_world (Fixer.retry_config (fixer w))
                  (attempts_of (Error.id e) (fix_attempts w)) w) as Hw.
    unfold exec in Hw.
    destruct (backoff_elapsed utcnow (Fixer.retry_config (fixer w))
                (attempts_of (Error.id e) (fix_attempts w)) w) as [ready w0] eqn:Hb.
    simpl snd in Hw.
    destruct ready; simp_run.
    + exists e, (utcnow (reads w0)).
      destruct Hw as [-> | ->]; fields; now repeat split.
    + exists e. now repeat split.
Qed.

End Attempt.



Ltac case_step :=
  match goal with
  | |- context [negb (Fixer.claude_enabled ?f)] => destruct (Fixer.claude_enabled f) eqn:?
  | |- context [match agent ?e with _ => _ end] => destruct (agent e) eqn:?
  | |- context [if ?rc =? 0 then _ else _] => destruct (rc =? 0) eqn:?
  | |- context [match syntax_errors ?c ?f with _ => _ end] =>
      destruct (syntax_errors c f) eqn:?
  | |- context [match restart ?c with _ => _ end] => destruct (restart c) eqn:?
  | |- context [if negb ?b && ?c then _ else _] => destruct (negb b && c) eqn:?
  end.

(** Splits [_process_error_run] (and [attempt_body]) by what the agent and
    the checks answer. *)
Ltac run_cases :=
  unfold _process_error_run, attempt_body, _invoke_claude_code, _verify_fix;
  simp_run; repeat (case_step; simp_run).

Section AttemptEnd.

Variable utcnow : nat -> Z.



End AttemptEnd.


Section AttemptFailure.

Variable utcnow : nat -> Z.



End AttemptFailure.

Section Escalation.

Variable utcnow : nat -> Z.



End Escalation.

(** ** Operations that leave the attempts alone *)











Section Frames.

Variable utcnow : nat -> Z.
Variable uuid4 : nat -> string.









End Frames.

(** ** Numbering of the attempts, and the single open attempt *)










Section Numbering.

Variable utcnow : nat -> Z.
Variable uuid4 : nat -> string.


(** An iteration of [_fixing_loop] is a poll followed, when the poll
    opened an attempt, by the end of that attempt. *)
Lemma iteration_is_poll_then_finish (env : AttemptEnv) (w : World) :
  exec (fixing_loop_iteration utcnow env) w
  = match poll utcnow w with
    | (Begun error fix_attempt, w1) =>
        exec (_process_error_run utcnow env error fix_attempt) w1
    | (_, w1) => w1
    end.
Proof.
  unfold fixing_loop_iteration, poll, _process_error. run_monad.
  destruct (_get_next_error w) as [[e |] w0]; [| reflexivity].
  destruct (_process_error_start utcnow (Error.id e) w0) as [[| | | e' a] w1];
    try reflexivity.
  run_monad. now destruct (_process_error_run utcnow env e' a w1).
Qed.






End Numbering.

(** ** The theorems at work on a concrete run *)





(** ** The bulk scan does what live monitoring does *)

Section Scan.

Variable utcnow : nat -> Z.
Variable uuid4 : nat -> string.

Lemma ignores_bind {A B} (m : M A) (k : A -> M B) :
  ignores_running m -> (forall a, ignores_running (k a)) -> ignores_running (bind m k).
Proof.
  intros Hm Hk b w. unfold bind. rewrite (Hm b w). unfold eval, exec.
  destruct (m w) as [a w1]. simpl. apply (Hk a b w1).
Qed.

Lemma ignores_ret {A} (a : A) : ignores_running (ret a).
Proof. now intros b w. Qed.

Lemma ignores_now : ignores_running (now utcnow).
Proof. now intros b w. Qed.

Lemma ignores_fresh_uuid : ignores_running (fresh_uuid uuid4).
Proof. now intros b w. Qed.

Lemma ignores_emit ty payload source : ignores_running (emit utcnow ty payload source).
Proof. now intros b w. Qed.

Lemma ignores_gets_errors : ignores_running (gets errors).
Proof. now intros b w. Qed.

Lemma ignores_context_window : ignores_running context_window.
Proof. now intros b w. Qed.

Lemma ignores_push_context line : ignores_running (push_context line).
Proof. now intros b w. Qed.

Lemma ignores_add_error e :
  ignores_running (modify (fun w => set_errors (errors w ++ [e]) w)).
Proof. now intros b w. Qed.

Ltac ignores_with known :=
  repeat first
    [ known
    | apply ignores_ret | apply ignores_now | apply ignores_fresh_uuid
    | apply ignores_emit | apply ignores_gets_errors | apply ignores_context_window
    | apply ignores_push_context | apply ignores_add_error
    | apply ignores_bind; [| intro] ].

Lemma ignores_create_error ty cat sev fixable msg raw ctx :
  ignores_running (_create_error utcnow uuid4 ty cat sev fixable msg raw ctx).
Proof.
  unfold _create_error, _is_duplicate_error.
  destruct (_extract_location raw). ignores_with fail.
  match goal with |- ignores_running (if ?c then _ else _) => destruct c end;
    ignores_with fail.
Qed.

Lemma ignores_process_error_block (lines : list string) :
  ignores_running (_process_error_block utcnow uuid4 lines).
Proof.
  unfold _process_error_block. destruct lines as [| line0 rest]; [apply ignores_ret |].
  destruct (first_pattern _ _) as [[[[[ty cat] sev] fixable] msg] |].
  - ignores_with ltac:(apply ignores_create_error).
  - destruct (_ || _); ignores_with ltac:(apply ignores_create_error).
Qed.

Lemma ignores_process_lines (lines block : list string) (inside : bool) :
  ignores_running (process_lines utcnow uuid4 lines block inside).
Proof.
  revert block inside. induction lines as [| line rest IH]; intros block inside; simpl.
  - apply ignores_ret.
  - destruct (Py.blank line); [apply IH |].
    apply ignores_bind; [apply ignores_push_context | intros _].
    destruct (Re.match_ _ line).
    + apply ignores_bind; [| intros _; apply IH].
      destruct (inside && nonempty block);
        [apply ignores_process_error_block | apply ignores_ret].
    + destruct inside; [| apply IH].
      destruct (_ || _); [apply IH |].
      apply ignores_bind; [apply ignores_process_error_block | intros _; apply IH].
Qed.

Lemma ignores_process_log_content (content : string) :
  ignores_running (_process_log_content utcnow uuid4 content).
Proof.
  unfold _process_log_content.
  apply ignores_bind; [apply ignores_process_lines | intros [block inside]].
  destruct (inside && nonempty block);
    [apply ignores_process_error_block | apply ignores_ret].
Qed.

(** Clearing [_running] suppresses nothing: a scan leaves the tables, the
    bus and the handler calls exactly as [_process_log_content] leaves
    them when it is run on the same text by the monitoring loop. *)
Theorem scan_log_file_publishes_like_monitoring
        (w : World) (content : string) (since : option Z) (limit : Z) :
  let scanned := exec (scan_log_file utcnow uuid4 (Some content) since limit) w in
  let monitored := exec (_process_log_content utcnow uuid4 content) w in
  errors scanned = errors monitored
  /\ bus scanned = bus monitored
  /\ delivered scanned = delivered monitored
  /\ Detector._running (detector scanned) = Detector._running (detector w).
Proof.
  intros scanned monitored. subst scanned monitored.
  unfold scan_log_file. run_monad.
  pose proof (ignores_process_log_content content false w) as H.
  unfold with_running, exec, set_running, modify in H. simpl snd in H.
  rewrite H. simpl. now repeat split.
Qed.

End Scan.


(** * Further properties of the code *)

(** ** Manual retry *)

Section Retry.

Variable utcnow : nat -> Z.

(** X1: [retry_error] returns true exactly when the row exists and is
    FAILED or IGNORED; it then only sets the status to QUEUED: the attempts,
    the bus and the clock are untouched, so the attempt history is kept
    and nothing is published.  Otherwise it returns false and changes
    nothing. *)
Theorem retry_error_requeues_only_failed_or_ignored (w : World) (error_id : string) :
  let ok := eval (retry_error error_id) w in
  let w' := exec (retry_error error_id) w in
  (ok = true <->
   exists e, find_error error_id (errors w) = Some e
             /\ (Error.status e = ErrorStatus.FAILED \/ Error.status e = ErrorStatus.IGNORED))
  /\ (ok = true ->
      w' = set_errors (update_error error_id (Error.set_status ErrorStatus.QUEUED) (errors w)) w)
  /\ (ok = false -> w' = w).
Proof.
  intros ok w'. subst ok w'. unfold retry_error. run_monad.
  destruct (find_error error_id (errors w)) as [e |] eqn:E; run_monad.
  - destruct (Error.status e) eqn:S; run_monad;
      (split; [split; [try discriminate; intros _; exists e; auto
                      | try reflexivity; intros (e' & [= <-] & [H | H]); congruence]
              | split; [try discriminate; reflexivity | try discriminate; reflexivity]]).
  - split; [split; [discriminate | intros (e & He & _); discriminate] |].
    split; [discriminate | reflexivity].
Qed.

Lemma ignore_error_found (w : World) (error_id ignored_by : string) (e : Error.t) :
  find_error error_id (errors w) = Some e ->
  let w1 := exec (ignore_error utcnow error_id ignored_by) w in
  let ignored := Error.set_ignored (Some (utcnow (reads w))) (Some ignored_by)
                                   (Error.set_status ErrorStatus.IGNORED e) in
  find_error error_id (errors w1) = Some ignored
  /\ fix_attempts w1 = fix_attempts w.
Proof.
  intros Hfind w1 ignored. subst w1. unfold ignore_error. run_monad.
  rewrite Hfind. run_monad; fields. split; [| reflexivity].
  rewrite !find_update_error by reflexivity. now rewrite Hfind.
Qed.

(** X2: ignoring an error and then retrying it always succeeds, whatever
    the status the error had: it ends QUEUED, still carrying the actor and
    the time of the ignore call. *)
Theorem ignore_then_retry_requeues (w : World) (error_id ignored_by : string) (e : Error.t) :
  find_error error_id (errors w) = Some e ->
  let w1 := exec (ignore_error utcnow error_id ignored_by) w in
  let w2 := exec (retry_error error_id) w1 in
  eval (retry_error error_id) w1 = true
  /\ exists e', find_error error_id (errors w2) = Some e'
                /\ Error.status e' = ErrorStatus.QUEUED
                /\ Error.ignored_by e' = Some ignored_by
                /\ Error.ignored_at e' = Some (utcnow (reads w))
                /\ Error.resolved_at e' = Error.resolved_at e
                /\ fix_attempts w2 = fix_attempts w.
Proof.
  intros Hfind w1 w2.
  destruct (ignore_error_found w error_id ignored_by e Hfind) as (Hfind1 & Hfa).
  fold w1 in Hfind1, Hfa. subst w2. unfold retry_error. run_monad.
  rewrite Hfind1. cbn [Error.status Error.set_ignored Error.set_status]. fields.
  split; [reflexivity |].
  rewrite find_update_error by reflexivity. rewrite Hfind1.
  eexists. split; [reflexivity |]. simpl. repeat split. exact Hfa.
Qed.

End Retry.

Lemma ignore_then_retry_requeues_witness :
  let clock := Scenario.clock Scenario.second in
  let w := exec (_process_log_content clock Scenario.ids Scenario.value_error_line)
                Scenario.fresh in
  let w1 := exec (ignore_error clock "a" "admin") w in
  eval (retry_error "a") w1 = true
  /\ exists e', find_error "a" (errors (exec (retry_error "a") w1)) = Some e'
                /\ Error.status e' = ErrorStatus.QUEUED
                /\ Error.ignored_by e' = Some "admin".
Proof.
  intros clock w w1.
  destruct (find_error "a" (errors w)) as [e |] eqn:He;
    [| vm_compute in He; discriminate He].
  destruct (ignore_then_retry_requeues clock w "a" "admin" e He)
    as (Hok & e' & Hfind & Hstatus & Hby & _).
  split; [exact Hok |]. exists e'. repeat split; assumption.
Defined.

(** ** Shape of the backoff *)

Section BackoffShape.

Import RetryConfig.




End BackoffShape.


(** ** Subscriptions and dispatch *)

Section Dispatch.

Import EventBus.

Lemma remove_first_absent ty h l :
  existsb (fun p => EventType.eqb (fst p) ty && Nat.eqb (snd p) h) l = false ->
  remove_first ty h l = l.
Proof.
  induction l as [| [ty' h'] l IH]; simpl; [reflexivity |].
  intros H. apply orb_false_iff in H. destruct H as [H1 H2].
  rewrite H1. now rewrite IH.
Qed.

Lemma remove_first_app_absent ty h l :
  existsb (fun p => EventType.eqb (fst p) ty && Nat.eqb (snd p) h) l = false ->
  remove_first ty h (l ++ [(ty, h)]) = l.
Proof.
  induction l as [| [ty' h'] l IH]; simpl.
  - intros _. unfold EventType.eqb. now rewrite String.eqb_refl, Nat.eqb_refl.
  - intros H. apply orb_false_iff in H. destruct H as [H1 H2].
    rewrite H1. now rewrite IH.
Qed.

(** X4: [unsubscribe] undoes a [subscribe] of a handler that was not
    already subscribed to that type, and does nothing (it does not raise)
    for a handler that is not subscribed; neither touches the history or
    the global subscribers. *)
Theorem unsubscribe_undoes_subscribe
        (b : EventBus.t) (event_type : EventType.t) (handler : EventHandler) :
  subscribed event_type handler b = false ->
  unsubscribe event_type handler (subscribe event_type handler b) = b
  /\ unsubscribe event_type handler b = b.
Proof.
  intros H. unfold subscribed in H. destruct b as [subs globals hist size].
  unfold unsubscribe, subscribe; simpl in *.
  now rewrite remove_first_app_absent, remove_first_absent.
Qed.

Lemma handlers_for_subscribe b ty h ev :
  handlers_for (subscribe ty h b) ev
  = handlers_for b ev ++ (if EventType.eqb ty (Event.type ev) then [h] else []).
Proof.
  unfold handlers_for, subscribe; simpl.
  rewrite filter_app, map_app, app_assoc. simpl.
  now destruct (EventType.eqb ty (Event.type ev)).
Qed.

(** X5: [publish] awaits the global subscribers first, in subscription
    order, then the subscribers of the event's type, in subscription order;
    a handler subscribed to another type is not called on that account, a
    handler subscribed twice is called twice, and publishing changes no
    subscription. *)
Theorem publish_dispatch_order
        (b : EventBus.t) (event : Event.t) (event_type : EventType.t) (handler : EventHandler) :
  let calls := snd (publish event b) in
  let b' := fst (publish event b) in
  snd (publish event (subscribe_all handler b))
  = _global_subscribers b ++ [handler]
    ++ map snd (filter (fun p => EventType.eqb (fst p) (Event.type event)) (_subscribers b))
  /\ (event_type = Event.type event ->
      snd (publish event (subscribe event_type handler b)) = calls ++ [handler]
      /\ snd (publish event (subscribe event_type handler (subscribe event_type handler b)))
         = calls ++ [handler; handler])
  /\ (event_type <> Event.type event ->
      snd (publish event (subscribe event_type handler b)) = calls)
  /\ _subscribers b' = _subscribers b
  /\ _global_subscribers b' = _global_subscribers b.
Proof.
  intros calls b'. subst calls b'. unfold publish. simpl.
  split; [| split; [| split; [| split; reflexivity]]].
  - unfold handlers_for, subscribe_all. simpl. now rewrite <- app_assoc.
  - intros ->. rewrite !handlers_for_subscribe.
    unfold EventType.eqb. rewrite String.eqb_refl. split; [reflexivity |].
    now rewrite <- app_assoc.
  - intros Hne. rewrite handlers_for_subscribe.
    destruct (EventType.eqb event_type (Event.type event)) eqn:E.
    + apply EventType_eqb_eq in E. contradiction.
    + apply app_nil_r.
Qed.

End Dispatch.

Lemma unsubscribe_undoes_subscribe_witness :
  EventBus.unsubscribe EventType.FIX_FAILED 3%nat
    (EventBus.subscribe EventType.FIX_FAILED 3%nat (EventBus.init 100))
  = EventBus.init 100.
Proof.
  refine (proj1 (unsubscribe_undoes_subscribe (EventBus.init 100) EventType.FIX_FAILED 3%nat _)).
  reflexivity.
Defined.

(** ** Reading the history *)

Lemma lastn_length_le {A} (n : Z) (l : list A) :
  0 < n -> Z.of_nat (List.length (Py.lastn n l)) <= n.
Proof.
  intros Hn. unfold Py.lastn. rewrite (proj2 (Z.ltb_lt 0 n) Hn).
  rewrite length_skipn. lia.
Qed.

Lemma lastn_suffix {A} (n : Z) (l : list A) : exists dropped, l = dropped ++ Py.lastn n l.
Proof.
  unfold Py.lastn. eexists. symmetry. apply firstn_skipn.
Qed.

Lemma lastn_in {A} (n : Z) (l : list A) (x : A) : In x (Py.lastn n l) -> In x l.
Proof.
  intros H. destruct (lastn_suffix n l) as [d Hd]. rewrite Hd.
  apply in_or_app. now right.
Qed.

Lemma lastn_nil {A} (n : Z) (l : list A) : 0 < n -> Py.lastn n l = [] -> l = [].
Proof.
  intros Hn. unfold Py.lastn. rewrite (proj2 (Z.ltb_lt 0 n) Hn). intros H.
  apply (f_equal (@List.length A)) in H. rewrite length_skipn in H.
  change (List.length (@nil A)) with 0%nat in H.
  destruct l as [| a l]; [reflexivity |].
  change (List.length (a :: l)) with (S (List.length l)) in H. lia.
Qed.

(** X6: [get_history] returns events of the history in publish order,
    all of the requested type when one is given; for a limit of at least 1
    they are the last ones, at most [limit] of them; for a limit of 0 the
    slice [[-0:]] is the whole list, so everything is returned. *)
Theorem get_history_returns_suffix
        (b : EventBus.t) (event_type : option EventType.t) (limit : Z) :
  let result := EventBus.get_history event_type limit b in
  let selected := match event_type with
                  | Some ty => filter (fun e => EventType.eqb (Event.type e) ty)
                                      (EventBus._history b)
                  | None => EventBus._history b
                  end in
  (exists older, selected = older ++ result)
  /\ (forall e, In e result ->
                In e (EventBus._history b)
                /\ forall ty, event_type = Some ty -> Event.type e = ty)
  /\ (0 < limit -> Z.of_nat (List.length result) <= limit)
  /\ (limit = 0 -> result = selected).
Proof.
  intros result selected.
  assert (Hres : result = Py.lastn limit selected)
    by (subst result selected; unfold EventBus.get_history; now destruct event_type).
  rewrite Hres. split; [apply lastn_suffix |]. split; [| split].
  - intros e He. apply lastn_in in He. subst selected.
    destruct event_type as [ty |].
    + apply filter_In in He. destruct He as [Hin Hty]. split; [exact Hin |].
      intros ty' [= <-]. now apply EventType_eqb_eq.
    + split; [exact He | discriminate].
  - apply lastn_length_le.
  - intros ->. unfold Py.lastn. simpl.
    replace (Z.to_nat (Z.min 0 (Z.of_nat (List.length selected)))) with 0%nat by lia.
    reflexivity.
Qed.

(** ** Post-fix verification *)

Lemma upto_length (n : Z) (s : string) :
  0 <= n -> Z.of_nat (String.length (Py.upto n s)) <= n.
Proof.
  intros Hn. unfold Py.upto. apply Z.leb_le in Hn. rewrite Hn. apply Z.leb_le in Hn.
  assert (H : forall k t, (String.length (Py.take k t) <= k)%nat).
  { induction k as [| k IH]; intros [| c t]; simpl; try lia.
    specialize (IH t). lia. }
  specialize (H (Z.to_nat n) s). lia.
Qed.

(** X7: [_get_recent_errors] returns at most 10 entries, each at most 200
    characters long and each the beginning of a line of the log tail that
    contains ERROR or CRITICAL; without a log file it returns nothing. *)
Theorem recent_errors_are_bounded (tail : option string) :
  Z.of_nat (List.length (_get_recent_errors tail)) <= 10
  /\ (forall x, In x (_get_recent_errors tail) ->
                Z.of_nat (String.length x) <= 200
                /\ exists content line,
                     tail = Some content
                     /\ In line (Py.split_nl content)
                     /\ (Py.contains "ERROR" line || Py.contains "CRITICAL" line) = true
                     /\ x = Py.upto 200 line)
  /\ _get_recent_errors None = [].
Proof.
  split; [| split; [| reflexivity]].
  - destruct tail as [content |]; simpl; [| lia]. apply lastn_length_le. lia.
  - intros x Hx. destruct tail as [content |]; simpl in Hx; [| contradiction].
    apply lastn_in in Hx. apply in_map_iff in Hx. destruct Hx as (line & <- & Hline).
    apply filter_In in Hline. destruct Hline as [Hin Hmark].
    split; [apply upto_length; lia |]. now exists content, line.
Qed.

Lemma syntax_errors_nil (c : Checks) (files : list string) :
  syntax_errors c files = [] <->
  forall f, In f files -> Py.endswith ".py" f = true -> syntax_ok c f = true.
Proof.
  unfold syntax_errors. split.
  - intros H f Hin Hpy.
    destruct (syntax_ok c f) eqn:E; [reflexivity |]. exfalso.
    apply map_eq_nil in H.
    assert (Hf : In f (filter (fun f => Py.endswith ".py" f && negb (syntax_ok c f)) files))
      by (apply filter_In; split; [exact Hin | now rewrite Hpy, E]).
    now rewrite H in Hf.
  - intros H.
    assert (Hnil : filter (fun f => Py.endswith ".py" f && negb (syntax_ok c f)) files = []).
    { induction files as [| f files IH]; [reflexivity |]. simpl.
      destruct (Py.endswith ".py" f) eqn:Hpy; simpl.
      - rewrite (H f (or_introl eq_refl) Hpy). simpl. apply IH.
        intros g Hg. apply H. now right.
      - apply IH. intros g Hg. apply H. now right. }
    now rewrite Hnil.
Qed.

Lemma recent_errors_nil (tail : option string) :
  _get_recent_errors tail = [] <->
  forall content, tail = Some content ->
                  forall line, In line (Py.split_nl content) ->
                               Py.contains "ERROR" line = false
                               /\ Py.contains "CRITICAL" line = false.
Proof.
  destruct tail as [content |]; simpl; [| split; [discriminate | reflexivity]].
  split.
  - intros H c [= <-] line Hline.
    apply lastn_nil in H; [| lia]. apply map_eq_nil in H.
    apply orb_false_iff.
    destruct (Py.contains "ERROR" line || Py.contains "CRITICAL" line) eqn:E; [| reflexivity].
    exfalso.
    assert (Hf : In line (filter (fun line => Py.contains "ERROR" line
                                              || Py.contains "CRITICAL" line)
                                 (Py.split_nl content)))
      by (apply filter_In; now split).
    now rewrite H in Hf.
  - intros H. specialize (H content eq_refl).
    assert (Hnil : filter (fun line => Py.contains "ERROR" line || Py.contains "CRITICAL" line)
                          (Py.split_nl content) = []).
    { induction (Py.split_nl content) as [| line lines IH]; [reflexivity |]. simpl.
      destruct (H line (or_introl eq_refl)) as [-> ->]. simpl. apply IH.
      intros l Hl. apply H. now right. }
    now rewrite Hnil.
Qed.

(** X8: [_verify_fix] reports success exactly when every modified [.py]
    file passes the syntax check, the service restarts, the log tail does
    not hold both the error's type and the first 100 characters of its
    message, and no line of the tail contains ERROR or CRITICAL, old lines
    included; in particular it reports success when there is no log file,
    and never restarts the service after a syntax error. *)
Theorem verify_fix_successful_iff
        (error : Error.t) (claude_response : ClaudeResponse) (c : Checks) (w : World) :
  ((exists v, eval (_verify_fix error claude_response c) w = Returns v
              /\ fix_successful v = true)
   <->
   (forall f, In f (files_modified claude_response) ->
              Py.endswith ".py" f = true -> syntax_ok c f = true)
   /\ restart c = None
   /\ _check_for_error_in_logs (tail200 c) (Error.error_type error)
                               (Py.upto 100 (Error.message error)) = false
   /\ (forall content, tail500 c = Some content ->
                       forall line, In line (Py.split_nl content) ->
                                    Py.contains "ERROR" line = false
                                    /\ Py.contains "CRITICAL" line = false))
  /\ (syntax_errors c (files_modified claude_response) <> [] ->
      _verify_fix error claude_response c w
      = (Returns (mkVerification false false
                                 (syntax_errors c (files_modified claude_response)) false), w))
  /\ _check_for_error_in_logs None (Error.error_type error)
                              (Py.upto 100 (Error.message error)) = false.
Proof.
  split; [| split; [| reflexivity]].
  - unfold _verify_fix, eval. split.
    + intros (v & Hv & Hok).
      destruct (syntax_errors c (files_modified claude_response)) as [| x errs] eqn:Hsyn.
      * pose proof (proj1 (syntax_errors_nil _ _) Hsyn) as Hfiles.
        destruct (restart c) as [msg |]; [discriminate Hv |].
        revert Hv. run_monad. intros Hv. injection Hv as <-.
        cbn [fix_successful] in Hok.
        apply andb_prop in Hok. destruct Hok as [Hfound Hnew].
        cbn [andb] in Hfound.
        apply negb_true_iff in Hfound. apply Z.eqb_eq in Hnew.
        assert (Hnil : _get_recent_errors (tail500 c) = [])
          by (destruct (_get_recent_errors (tail500 c)); [reflexivity | discriminate Hnew]).
        split; [exact Hfiles |]. split; [reflexivity |]. split; [exact Hfound |].
        exact (proj1 (recent_errors_nil _) Hnil).
      * revert Hv. run_monad. intros Hv. injection Hv as <-. discriminate Hok.
    + intros (Hfiles & Hrestart & Hfound & Hlines).
      pose proof (proj2 (syntax_errors_nil _ _) Hfiles) as Hsyn.
      pose proof (proj2 (recent_errors_nil _) Hlines) as Hnil.
      rewrite Hsyn, Hrestart. run_monad. eexists. split; [reflexivity |].
      cbn [fix_successful]. now rewrite Hfound, Hnil.
  - intros Hsyn. unfold _verify_fix.
    destruct (syntax_errors c (files_modified claude_response)); [contradiction | reflexivity].
Qed.

(** ** What the fixing loop picks *)

Lemma insert_by_In {A} (key : A -> Z) (x y : A) (l : list A) :
  In y (insert_by key x l) <-> y = x \/ In y l.
Proof.
  induction l as [| z l IH]; simpl; [intuition congruence |].
  destruct (key z <=? key x); simpl; rewrite ?IH; intuition congruence.
Qed.

Lemma order_by_In {A} (key : A -> Z) (y : A) (l : list A) :
  In y (order_by key l) <-> In y l.
Proof.
  unfold order_by.
  enough (G : forall acc, In y (fold_left (fun acc x => insert_by key x acc) l acc)
                          <-> In y acc \/ In y l)
    by (rewrite G; simpl; intuition).
  induction l as [| x l IH]; intro acc; simpl; [intuition |].
  rewrite IH, insert_by_In. intuition congruence.
Qed.

Lemma insert_by_ordered {A} (key : A -> Z) (x : A) (l : list A) :
  StronglySorted (fun a b => key a <= key b) l ->
  StronglySorted (fun a b => key a <= key b) (insert_by key x l).
Proof.
  induction 1 as [| z l Hl IH Hz]; simpl; [repeat constructor |].
  destruct (key z <=? key x) eqn:E.
  - constructor; [exact IH |]. apply Forall_forall. intros y Hy.
    apply insert_by_In in Hy. destruct Hy as [-> | Hy].
    + now apply Z.leb_le.
    + rewrite Forall_forall in Hz. now apply Hz.
  - apply Z.leb_gt in E. constructor; [now constructor |].
    constructor; [lia |]. rewrite Forall_forall in *. intros y Hy.
    specialize (Hz y Hy). lia.
Qed.

Lemma order_by_ordered {A} (key : A -> Z) (l : list A) :
  StronglySorted (fun a b => key a <= key b) (order_by key l).
Proof.
  unfold order_by.
  enough (G : forall acc, StronglySorted (fun a b => key a <= key b) acc ->
                          StronglySorted (fun a b => key a <= key b)
                                         (fold_left (fun acc x => insert_by key x acc) l acc))
    by (apply G; constructor).
  induction l as [| x l IH]; intros acc Hacc; simpl; [exact Hacc |].
  apply IH. now apply insert_by_ordered.
Qed.

Lemma order_by_length {A} (key : A -> Z) (l : list A) :
  List.length (order_by key l) = List.length l.
Proof.
  unfold order_by.
  enough (G : forall acc, List.length (fold_left (fun acc x => insert_by key x acc) l acc)
                          = (List.length acc + List.length l)%nat)
    by (now rewrite G).
  induction l as [| x l IH]; intro acc; simpl; [lia |].
  rewrite IH.
  assert (H : forall l', List.length (insert_by key x l') = S (List.length l')).
  { induction l' as [| z l' IH']; simpl; [reflexivity |].
    destruct (key z <=? key x); simpl; now rewrite ?IH'. }
  rewrite H. lia.
Qed.

(** The first row of an ordered selection is a selected row with the
    least key; the selection has no first row only when nothing is
    selected. *)
Lemma oldest_with_spec (st : ErrorStatus.t) (rows : list Error.t) :
  match oldest_with st rows with
  | Some row =>
      In row rows /\ candidate st row = true
      /\ forall other, In other rows -> candidate st other = true ->
                       Error.detected_at row <= Error.detected_at other
  | None => forall other, In other rows -> candidate st other = false
  end.
Proof.
  unfold oldest_with. fold (candidate st).
  pose proof (order_by_ordered Error.detected_at (filter (candidate st) rows)) as Hs.
  pose proof (fun y => order_by_In Error.detected_at y (filter (candidate st) rows)) as Hin.
  pose proof (order_by_length Error.detected_at (filter (candidate st) rows)) as Hlen.
  destruct (order_by Error.detected_at (filter (candidate st) rows)) as [| row rest]; simpl.
  - intros other Hother. destruct (candidate st other) eqn:E; [| reflexivity].
    assert (Hf : In other (filter (candidate st) rows)) by (apply filter_In; now split).
    destruct (filter (candidate st) rows); [contradiction | discriminate Hlen].
  - assert (Hrow : In row (filter (candidate st) rows)) by (apply Hin; now left).
    apply filter_In in Hrow. destruct Hrow as [Hrow Hc].
    split; [exact Hrow |]. split; [exact Hc |].
    intros other Hother Hco.
    assert (Hf : In other (row :: rest)) by (apply Hin, filter_In; now split).
    destruct Hf as [<- | Hf]; [lia |].
    inversion Hs as [| ? ? _ Hall]; subst. rewrite Forall_forall in Hall. now apply Hall.
Qed.

Lemma candidate_status (st : ErrorStatus.t) (e : Error.t) :
  candidate st e = true -> Error.status e = st /\ Error.auto_fixable e = true.
Proof.
  unfold candidate. intros H. apply andb_prop in H. destruct H as [H1 H2].
  split; [now apply ErrorStatus_eqb_eq | exact H2].
Qed.

Lemma candidate_false (st : ErrorStatus.t) (e : Error.t) :
  candidate st e = false -> Error.auto_fixable e = true -> Error.status e <> st.
Proof.
  unfold candidate. intros H Hfix Hst. rewrite Hfix, andb_true_r in H.
  apply (proj2 (ErrorStatus_eqb_eq _ _)) in Hst. congruence.
Qed.

(** X9: [_get_next_error] returns an auto-fixable row, the one with the
    least [detected_at] among the QUEUED ones when there is one, and
    otherwise among the DETECTED ones, which it then marks QUEUED, in the
    table and in what it returns; it returns [None], and changes nothing,
    exactly when no auto-fixable row is QUEUED or DETECTED. *)
Theorem get_next_error_picks_oldest (w : World) :
  match _get_next_error w with
  | (Some error, w') =>
      exists row,
        In row (errors w)
        /\ Error.auto_fixable row = true
        /\ error = Error.set_status ErrorStatus.QUEUED row
        /\ (forall other, In other (errors w) -> Error.auto_fixable other = true ->
                          Error.status other = Error.status row ->
                          Error.detected_at row <= Error.detected_at other)
        /\ (Error.status row = ErrorStatus.QUEUED /\ w' = w
            \/ Error.status row = ErrorStatus.DETECTED
               /\ (forall other, In other (errors w) -> Error.auto_fixable other = true ->
                                 Error.status other <> ErrorStatus.QUEUED)
               /\ w' = set_errors (update_error (Error.id row)
                                                (Error.set_status ErrorStatus.QUEUED)
                                                (errors w)) w)
  | (None, w') =>
      w' = w
      /\ forall other, In other (errors w) -> Error.auto_fixable other = true ->
                       Error.status other <> ErrorStatus.QUEUED
                       /\ Error.status other <> ErrorStatus.DETECTED
  end.
Proof.
  unfold _get_next_error. run_monad.
  pose proof (oldest_with_spec ErrorStatus.QUEUED (errors w)) as Hq.
  pose proof (oldest_with_spec ErrorStatus.DETECTED (errors w)) as Hd.
  destruct (oldest_with ErrorStatus.QUEUED (errors w)) as [row |].
  - destruct Hq as (Hin & Hc & Hmin). apply candidate_status in Hc as Hc'.
    destruct Hc' as [Hst Hfix]. exists row.
    split; [exact Hin |]. split; [exact Hfix |].
    split; [destruct row; simpl in Hst; now rewrite Hst |].
    split; [| now left].
    intros other Ho Hof Hos. apply Hmin; [exact Ho |].
    unfold candidate. rewrite Hof, Hos, Hst. reflexivity.
  - destruct (oldest_with ErrorStatus.DETECTED (errors w)) as [row |]; run_monad.
    + destruct Hd as (Hin & Hc & Hmin). apply candidate_status in Hc as Hc'.
      destruct Hc' as [Hst Hfix]. exists row.
      split; [exact Hin |]. split; [exact Hfix |]. split; [reflexivity |].
      split.
      * intros other Ho Hof Hos. apply Hmin; [exact Ho |].
        unfold candidate. rewrite Hof, Hos, Hst. reflexivity.
      * right. split; [exact Hst |]. split; [| reflexivity].
        intros other Ho Hof. apply candidate_false; [now apply Hq | exact Hof].
    + split; [reflexivity |]. intros other Ho Hof.
      split; (apply candidate_false; [auto | exact Hof]).
Qed.



Section Loop.

Variable utcnow : nat -> Z.


End Loop.

(** ** What the operations leave alone *)

Section Frame.

Variable utcnow : nat -> Z.
Variable uuid4 : nat -> string.
Variable R : World -> World -> Prop.
Hypothesis HR : frame R.

Lemma steps_ret {A} (a : A) : steps R (ret a).
Proof. intro w. apply (frame_refl R HR). Qed.

Lemma steps_gets {A} (f : World -> A) : steps R (gets f).
Proof. intro w. apply (frame_refl R HR). Qed.

Lemma steps_bind {A B} (m : M A) (k : A -> M B) :
  steps R m -> (forall a, steps R (k a)) -> steps R (bind m k).
Proof.
  intros Hm Hk w. specialize (Hm w). unfold exec, bind in *.
  destruct (m w) as [a w1]. simpl in Hm.
  apply (frame_trans R HR) with (w2 := w1); [exact Hm | apply (Hk a w1)].
Qed.

Lemma steps_now : steps R (now utcnow).
Proof. intro w. apply (frame_reads R HR). Qed.

Lemma steps_fresh_uuid : steps R (fresh_uuid uuid4).
Proof. intro w. apply (frame_draws R HR). Qed.

Lemma steps_emit ty payload source : steps R (emit utcnow ty payload source).
Proof.
  unfold emit. apply steps_bind; [apply steps_now | intro ts].
  intro w. unfold publish. run_monad. apply (frame_bus R HR).
Qed.

Lemma steps_write_error id f :
  (forall e, detection (f e) = detection e) -> steps R (write_error id f).
Proof. intros Hf w. now apply (frame_update R HR). Qed.

Lemma steps_add_error e :
  within_bounds e -> steps R (modify (fun w => set_errors (errors w ++ [e]) w)).
Proof. intros He w. now apply (frame_append R HR). Qed.

Lemma steps_push_context line : steps R (push_context line).
Proof. intro w. unfold push_context. run_monad. apply (frame_detector R HR). Qed.

Lemma steps_set_running b : steps R (set_running b).
Proof. intro w. run_monad. apply (frame_detector R HR). Qed.

Ltac steps_with known :=
  repeat first
    [ known
    | apply steps_ret | apply steps_gets | apply steps_now | apply steps_fresh_uuid
    | apply steps_emit | apply steps_push_context
    | apply steps_add_error; split; apply upto_length; lia
    | apply steps_set_running
    | apply steps_write_error; intro; reflexivity
    | apply steps_bind; [| intro] ].

Lemma steps_create_error ty cat sev fixable msg raw ctx :
  steps R (_create_error utcnow uuid4 ty cat sev fixable msg raw ctx).
Proof.
  unfold _create_error, _is_duplicate_error.
  destruct (_extract_location raw). steps_with fail.
  match goal with |- steps R (if ?b then _ else _) => destruct b end; steps_with fail.
Qed.

Lemma steps_process_error_block (lines : list string) :
  steps R (_process_error_block utcnow uuid4 lines).
Proof.
  unfold _process_error_block, context_window.
  destruct lines as [| line0 rest]; steps_with fail.
  destruct (first_pattern _ _) as [[[[[ty cat] sev] fixable] msg] |].
  - steps_with ltac:(apply steps_create_error).
  - destruct (_ || _); steps_with ltac:(apply steps_create_error).
Qed.

Lemma steps_process_lines (lines block : list string) (inside : bool) :
  steps R (process_lines utcnow uuid4 lines block inside).
Proof.
  revert block inside. induction lines as [| line rest IH]; intros block inside; simpl.
  - steps_with fail.
  - destruct (Py.blank line); [apply IH |].
    apply steps_bind; [apply steps_push_context | intros _].
    destruct (Re.match_ _ line).
    + apply steps_bind; [| intros _; apply IH].
      destruct (inside && nonempty block);
        [apply steps_process_error_block | apply steps_ret].
    + destruct inside; [| apply IH].
      destruct (_ || _); [apply IH |].
      apply steps_bind; [apply steps_process_error_block | intros _; apply IH].
Qed.

Lemma steps_process_log_content (content : string) :
  steps R (_process_log_content utcnow uuid4 content).
Proof.
  unfold _process_log_content.
  apply steps_bind; [apply steps_process_lines | intros [block inside]].
  destruct (inside && nonempty block); [apply steps_process_error_block | apply steps_ret].
Qed.

Lemma steps_scan_log_file file since limit :
  steps R (scan_log_file utcnow uuid4 file since limit).
Proof.
  unfold scan_log_file. destruct file; [| apply steps_ret].
  steps_with ltac:(apply steps_process_log_content).
Qed.

Lemma steps_retry_error (error_id : string) : steps R (retry_error error_id).
Proof.
  unfold retry_error. steps_with fail.
  destruct (find_error error_id a) as [e |]; steps_with fail.
  destruct (Error.status e); steps_with fail.
Qed.

Lemma steps_ignore_error (error_id ignored_by : string) :
  steps R (ignore_error utcnow error_id ignored_by).
Proof.
  unfold ignore_error. steps_with fail.
  destruct (find_error error_id a); steps_with fail.
Qed.

Lemma steps_get_next_error : steps R _get_next_error.
Proof.
  unfold _get_next_error. steps_with fail.
  destruct (oldest_with ErrorStatus.QUEUED a); steps_with fail.
  destruct (oldest_with ErrorStatus.DETECTED a); steps_with fail.
Qed.

End Frame.

Lemma frame_same_fixer : frame (same fixer).
Proof. split; unfold same; intros; try reflexivity. congruence. Qed.

Lemma frame_same_attempts : frame (same fix_attempts).
Proof. split; unfold same; intros; try reflexivity. congruence. Qed.

Lemma frame_same_position :
  frame (same (fun w => Detector._last_position (detector w))).
Proof. split; unfold same; intros; try reflexivity. congruence. Qed.

Lemma frame_grown : frame grown.
Proof.
  assert (Hsame : forall w w', errors w' = errors w -> grown w w').
  { intros w w' H. exists []. rewrite H, app_nil_r. now split. }
  split; intros; try (apply Hsame; reflexivity).
  - destruct H as (a1 & H1 & B1). destruct H0 as (a2 & H2 & B2). exists (a1 ++ a2).
    split; [now rewrite H2, H1, map_app, app_assoc | now apply Forall_app].
  - exists [e]. fields. split; [now rewrite map_app | now constructor].
  - exists []. fields. split; [| constructor]. rewrite app_nil_r.
    unfold update_error. rewrite map_map.
    apply map_ext. intro e. destruct (String.eqb (Error.id e) id); [apply H | reflexivity].
Qed.

(** ** What holds in every state the services reach *)

Section Reachable.

Variable utcnow : nat -> Z.
Variable uuid4 : nat -> string.


Lemma run_errors (w : World) (env : AttemptEnv) (error : Error.t) (a : FixAttempt.t) :
  exists f,
    errors (exec (_process_error_run utcnow env error a) w)
    = update_error (Error.id error) f (errors w)
    /\ forall e, detection (f e) = detection e.
Proof.
  run_cases; rewrite ?update_error_fuse by reflexivity.
  all: eexists; split; [reflexivity |]; intro e; reflexivity.
Qed.


Lemma start_grown (w : World) (error_id : string) :
  grown w (exec (_process_error_start utcnow error_id) w).
Proof.
  pose proof (start_spec utcnow w error_id) as Hs. unfold exec.
  destruct (_process_error_start utcnow error_id w) as [[| | | error a] w1]; simpl.
  - destruct Hs as [_ ->]. apply (frame_refl _ frame_grown).
  - destruct Hs as (e & _ & _ & He & _).
    exists []. split; [| constructor]. rewrite He, app_nil_r. unfold update_error.
    rewrite map_map. apply map_ext. intro x.
    now destruct (String.eqb (Error.id x) (Error.id e)).
  - destruct Hs as (e & _ & _ & [-> | ->]);
      [apply (frame_refl _ frame_grown) | apply (frame_reads _ frame_grown)].
  - destruct Hs as (e & t & _ & _ & _ & _ & _ & He & _).
    exists []. split; [| constructor]. rewrite He, app_nil_r. unfold update_error.
    rewrite map_map. apply map_ext. intro x.
    now destruct (String.eqb (Error.id x) (Error.id e)).
Qed.




Lemma act_grown (a : Action) (s s' : Sys) :
  act utcnow uuid4 a s = Some s' -> grown (world s) (world s').
Proof.
  intros Hact. destruct s as [w fl].
  destruct a as [content | file since limit | | env | error_id | error_id ignored_by];
    simpl in Hact.
  - injection Hact as <-. apply (steps_process_log_content utcnow uuid4 _ frame_grown).
  - injection Hact as <-. apply (steps_scan_log_file utcnow uuid4 _ frame_grown).
  - destruct fl as [p |]; [discriminate |].
    unfold poll, bind in Hact.
    pose proof (steps_get_next_error _ frame_grown w) as Hnext. unfold exec in Hnext.
    destruct (_get_next_error w) as [[error |] w0]; simpl in Hnext.
    + pose proof (start_grown w0 (Error.id error)) as Hs. unfold exec in Hs.
      destruct (_process_error_start utcnow (Error.id error) w0) as [st w1].
      injection Hact as <-. simpl in *.
      now apply (frame_trans _ frame_grown) with (w2 := w0).
    + now injection Hact as <-.
  - destruct fl as [[error x] |]; [| discriminate].
    injection Hact as <-. simpl.
    destruct (run_errors w env error x) as (f & Hf & Hdet).
    exists []. split; [| constructor]. rewrite Hf, app_nil_r. unfold update_error.
    rewrite map_map. apply map_ext. intro e.
    destruct (String.eqb (Error.id e) (Error.id error)); [apply Hdet | reflexivity].
  - injection Hact as <-. apply (steps_retry_error _ frame_grown).
  - injection Hact as <-. apply (steps_ignore_error utcnow _ frame_grown).
Qed.



(** X13: no operation deletes, moves or rewrites what was detected: in
    every later state the table of errors has the earlier rows in place,
    unchanged in all but the status and the resolved and ignored marks,
    and possibly more rows after them, each with a message of at most
    2000 characters and a text of at most 10000. *)
Theorem errors_are_only_appended (actions : list Action) (s s' : Sys) :
  run_actions utcnow uuid4 actions s = Some s' ->
  exists added,
    map detection (errors (world s'))
    = map detection (errors (world s)) ++ map detection added
    /\ Forall (fun e => Z.of_nat (String.length (Error.message e)) <= 2000
                        /\ Z.of_nat (String.length (Error.raw_log e)) <= 10000)
              added.
Proof.
  revert s. induction actions as [| a l IH]; intros s Hrun; simpl in Hrun.
  - injection Hrun as <-. apply (frame_refl _ frame_grown).
  - destruct (act utcnow uuid4 a s) as [s1 |] eqn:Ha; [| discriminate].
    apply (frame_trans _ frame_grown) with (w2 := world s1);
      [now apply (act_grown a) | now apply IH].
Qed.

End Reachable.

(** ** Manual retry of an escalated error *)

Section RetryRoute.

Variable utcnow : nat -> Z.


End RetryRoute.

(** ** Following the log file *)






Section Following.

Variable utcnow : nat -> Z.
Variable uuid4 : nat -> string.




Lemma check_at_end (w : World) (content : string) :
  Detector._last_position (detector w) = Z.of_nat (String.length content) ->
  exec (_check_log_file utcnow uuid4 (Some content)) w = w.
Proof.
  intros Hpos. unfold _check_log_file. run_monad. rewrite Hpos, Z.ltb_irrefl.
  run_monad. now rewrite Hpos, Z.eqb_refl.
Qed.

(** X17: [start] on a running detector does nothing.  On a stopped one
    it sets the position to the end of the log, so that what the log holds
    at that time is never read by the monitoring loop: a check of the same
    file right after changes nothing.  This also holds after [stop]: what
    was logged while the detector was stopped is skipped. *)
Theorem start_skips_what_is_already_logged (w : World) (file : option string) :
  let started := exec (ErrorDetectorService_start utcnow file) w in
  let restarted := exec (ErrorDetectorService_start utcnow file)
                        (exec (ErrorDetectorService_stop utcnow) w) in
  (Detector._running (detector w) = true -> started = w)
  /\ (Detector._running (detector w) = false ->
      Detector._running (detector started) = true
      /\ Detector._last_position (detector started) = _get_file_size file
      /\ errors started = errors w
      /\ exec (_check_log_file utcnow uuid4 file) started = started)
  /\ Detector._running (detector restarted) = true
  /\ exec (_check_log_file utcnow uuid4 file) restarted = restarted.
Proof.
  intros started restarted.
  assert (Hstart : forall w0, Detector._running (detector w0) = false ->
            let w1 := exec (ErrorDetectorService_start utcnow file) w0 in
            Detector._running (detector w1) = true
            /\ Detector._last_position (detector w1) = _get_file_size file
            /\ errors w1 = errors w0
            /\ exec (_check_log_file utcnow uuid4 file) w1 = w1).
  { intros w0 Hoff w1.
    assert (H : Detector._running (detector w1) = true
                /\ Detector._last_position (detector w1) = _get_file_size file
                /\ errors w1 = errors w0).
    { subst w1. unfold ErrorDetectorService_start, set_last_position. run_monad.
      rewrite Hoff. run_monad; fields. now repeat split. }
    destruct H as (Hon & Hpos & Herr). repeat split; try assumption.
    destruct file as [content |]; [| reflexivity]. now apply check_at_end. }
  split; [| split].
  - intros Hon. subst started. unfold ErrorDetectorService_start. run_monad.
    now rewrite Hon.
  - apply Hstart.
  - destruct (Hstart (exec (ErrorDetectorService_stop utcnow) w)) as (Hon & _ & _ & Hcheck).
    + unfold ErrorDetectorService_stop. run_monad; fields. reflexivity.
    + now split.
Qed.

(** Text without a timestamped header line changes nothing but the
    detector's context buffer. *)
Lemma process_lines_without_header (lines : list string) (w : World) :
  (forall line, In line lines -> Re.match_ Patterns.ERROR_START_PATTERN line = None) ->
  exists buf,
    process_lines utcnow uuid4 lines [] false w
    = (([], false),
       set_detector (Detector.mk (Detector._running (detector w))
                                 (Detector._last_position (detector w)) buf
                                 (Detector._context_size (detector w))) w).
Proof.
  revert w. induction lines as [| line rest IH]; intros w Hno; simpl.
  - exists (Detector._context_buffer (detector w)). run_monad.
    now destruct w as [? ? ? ? ? ? [] ?].
  - assert (Hrest : forall l, In l rest -> Re.match_ Patterns.ERROR_START_PATTERN l = None)
      by (intros l Hl; apply Hno; now right).
    destruct (Py.blank line); [now apply IH |].
    unfold push_context. run_monad. rewrite (Hno line (or_introl eq_refl)).
    match goal with |- context [process_lines _ _ rest [] false ?w1] =>
      destruct (IH w1 Hrest) as [buf ->] end.
    exists buf. reflexivity.
Qed.

(** X18: log text in which no line starts with a timestamp, a process id
    and one of ERROR, CRITICAL and WARNING is never detected, whatever it
    contains: no row is added and nothing is published; only the context
    buffer of the detector changes. *)
Theorem text_without_header_is_not_detected (w : World) (content : string) :
  (forall line, In line (Py.split_nl content) ->
                Re.match_ Patterns.ERROR_START_PATTERN line = None) ->
  exists buf,
    exec (_process_log_content utcnow uuid4 content) w
    = set_detector (Detector.mk (Detector._running (detector w))
                                (Detector._last_position (detector w)) buf
                                (Detector._context_size (detector w))) w.
Proof.
  intros Hno. destruct (process_lines_without_header _ w Hno) as [buf H].
  exists buf. unfold _process_log_content. run_monad. now rewrite H.
Qed.

End Following.

(** ** The two ends of an attempt that the agent decides *)


Section Outcome.

Variable utcnow : nat -> Z.



End Outcome.

(** ** What a scan returns *)

Lemma sorted_filter {A} (R : A -> A -> Prop) (p : A -> bool) (l : list A) :
  StronglySorted R l -> StronglySorted R (filter p l).
Proof.
  induction 1 as [| x l Hl IH Hx]; simpl; [constructor |].
  destruct (p x); [| exact IH]. constructor; [exact IH |].
  rewrite Forall_forall in *. intros y Hy. apply filter_In in Hy. now apply Hx.
Qed.

Lemma in_firstn {A} (n : nat) (l : list A) (x : A) : In x (firstn n l) -> In x l.
Proof.
  intros H. rewrite <- (firstn_skipn n l). apply in_or_app. now left.
Qed.

Lemma sorted_firstn {A} (R : A -> A -> Prop) (n : nat) (l : list A) :
  StronglySorted R l -> StronglySorted R (firstn n l).
Proof.
  intros H. revert n. induction H as [| x l Hl IH Hx]; intros [| n]; simpl;
    try constructor; [apply IH |].
  rewrite Forall_forall in *. intros y Hy. apply Hx. now apply in_firstn in Hy.
Qed.

Lemma sorted_weaken {A} (R R' : A -> A -> Prop) (l : list A) :
  (forall a b, R a b -> R' a b) -> StronglySorted R l -> StronglySorted R' l.
Proof.
  intros HR. induction 1 as [| x l Hl IH Hx]; constructor; [exact IH |].
  rewrite Forall_forall in *. intros y Hy. now apply HR, Hx.
Qed.

Section ScanResult.

Variable utcnow : nat -> Z.
Variable uuid4 : nat -> string.

(** X21: [scan_log_file] returns at most [limit] rows of the table as
    the scan leaves it, the most recently detected first and none detected
    before [since]; these are rows of the whole table, those recorded
    before the scan included, so that without [since] and with a limit
    that the table does not exceed, every row is returned.  The scan does
    not move the position of the monitoring loop and touches neither the
    attempts nor the fixer.  Without a log file it returns nothing and
    changes nothing. *)
Theorem scan_log_file_returns_newest_first
        (w : World) (file : option string) (since : option Z) (limit : Z) :
  0 <= limit ->
  let result := eval (scan_log_file utcnow uuid4 file since limit) w in
  let w' := exec (scan_log_file utcnow uuid4 file since limit) w in
  Z.of_nat (List.length result) <= limit
  /\ (forall e, In e result ->
                In e (errors w')
                /\ forall s, since = Some s -> s <= Error.detected_at e)
  /\ StronglySorted (fun a b => Error.detected_at b <= Error.detected_at a) result
  /\ (file <> None -> since = None ->
      Z.of_nat (List.length (errors w')) <= limit ->
      forall e, In e (errors w') -> In e result)
  /\ (file = None -> result = [] /\ w' = w)
  /\ Detector._last_position (detector w') = Detector._last_position (detector w)
  /\ fix_attempts w' = fix_attempts w
  /\ fixer w' = fixer w.
Proof.
  intros Hlimit result w'.
  assert (Hkept : Detector._last_position (detector w') = Detector._last_position (detector w)
                  /\ fix_attempts w' = fix_attempts w /\ fixer w' = fixer w).
  { split; [| split].
    - apply (steps_scan_log_file utcnow uuid4 _ frame_same_position file since limit w).
    - apply (steps_scan_log_file utcnow uuid4 _ frame_same_attempts file since limit w).
    - apply (steps_scan_log_file utcnow uuid4 _ frame_same_fixer file since limit w). }
  enough (G : Z.of_nat (List.length result) <= limit
              /\ (forall e, In e result ->
                            In e (errors w')
                            /\ forall s, since = Some s -> s <= Error.detected_at e)
              /\ StronglySorted (fun a b => Error.detected_at b <= Error.detected_at a) result
              /\ (file <> None -> since = None ->
                  Z.of_nat (List.length (errors w')) <= limit ->
                  forall e, In e (errors w') -> In e result)
              /\ (file = None -> result = [] /\ w' = w))
    by (destruct G as (G1 & G2 & G3 & G4 & G5);
        exact (conj G1 (conj G2 (conj G3 (conj G4 (conj G5 Hkept)))))).
  clear Hkept. subst result w'.
  destruct file as [content |];
    [| simpl; repeat split; try (intros e []); try constructor; try congruence; lia].
  unfold scan_log_file, limit_rows. run_monad.
  destruct (_process_log_content utcnow uuid4 content _) as [u w1]. run_monad; fields.
  set (newest_first := order_by (fun e => - Error.detected_at e) (errors w1)).
  set (selected := match since with
                   | Some s => filter (fun e => s <=? Error.detected_at e) newest_first
                   | None => newest_first
                   end).
  assert (Hsorted : StronglySorted (fun a b => Error.detected_at b <= Error.detected_at a)
                                   selected).
  { assert (H : StronglySorted (fun a b => Error.detected_at b <= Error.detected_at a)
                               newest_first).
    { apply sorted_weaken with (R := fun a b => - Error.detected_at a <= - Error.detected_at b);
        [intros a b; lia | apply order_by_ordered]. }
    subst selected. destruct since; [now apply sorted_filter | exact H]. }
  assert (Hin : forall e, In e selected ->
                          In e (errors w1)
                          /\ forall s, since = Some s -> s <= Error.detected_at e).
  { intros e He. subst selected. destruct since as [s |].
    - apply filter_In in He. destruct He as [He Hs]. apply order_by_In in He.
      split; [exact He |]. intros s' [= <-]. now apply Z.leb_le.
    - apply order_by_In in He. split; [exact He | discriminate]. }
  split; [| split; [| split; [| split]]].
  - pose proof (firstn_le_length (Z.to_nat limit) selected). lia.
  - intros e He. apply in_firstn in He. now apply Hin.
  - now apply sorted_firstn.
  - intros _ -> Hall e He. subst selected.
    rewrite firstn_all2.
    + now apply order_by_In.
    + subst newest_first. rewrite order_by_length. lia.
  - discriminate.
Qed.

End ScanResult.

(** ** The code shown to the agent *)

Lemma enumerate_after {A} (ln i : Z) (l : list A) :
  ln < i -> filter (fun p => fst p =? ln) (enumerate i l) = [].
Proof.
  revert i. induction l as [| x l IH]; intros i Hi; simpl; [reflexivity |].
  replace (i =? ln) with false by (symmetry; apply Z.eqb_neq; lia).
  apply IH. lia.
Qed.

Lemma enumerate_at {A} (ln i : Z) (l : list A) :
  i <= ln ->
  filter (fun p => fst p =? ln) (enumerate i l)
  = match nth_error l (Z.to_nat (ln - i)) with
    | Some x => [(ln, x)]
    | None => []
    end.
Proof.
  revert i. induction l as [| x l IH]; intros i Hi; simpl.
  - now destruct (Z.to_nat (ln - i)).
  - destruct (i =? ln) eqn:E.
    + apply Z.eqb_eq in E. subst i. rewrite Z.sub_diag. simpl.
      rewrite enumerate_after by lia. reflexivity.
    + apply Z.eqb_neq in E. rewrite IH by lia.
      replace (Z.to_nat (ln - i)) with (S (Z.to_nat (ln - (i + 1)))) by lia.
      reflexivity.
Qed.

(** X22: for a line number of at least 1, [_get_code_context] shows at
    most [n] lines on each side of that line, and marks with [>>>] that
    line and no other; when the file is shorter than the line number,
    no line is marked. *)
Theorem code_context_marks_the_error_line (lines : list string) (line_number n : Z) :
  1 <= line_number ->
  0 <= n ->
  let shown := context_lines lines line_number n in
  _get_code_context (Some lines) line_number n = Py.join_nl shown
  /\ Z.of_nat (List.length shown) <= 2 * n + 1
  /\ filter (Py.startswith ">>>") shown
     = match nth_error lines (Z.to_nat (line_number - 1)) with
       | Some line => [(">>> " ++ format_4d line_number ++ ": " ++ rstrip line)%string]
       | None => []
       end.
Proof.
  intros Hln Hn shown. split; [reflexivity |]. subst shown. unfold context_lines.
  set (start := Z.max 0 (line_number - n - 1)).
  set (end_ := Z.min (Z.of_nat (List.length lines)) (line_number + n)).
  set (fmt := fun p : Z * string =>
                let (i, line) := p in
                ((if (i =? line_number)%Z then ">>>" else "   ")
                   ++ " " ++ format_4d i ++ ": " ++ rstrip line)%string).
  split.
  - rewrite length_map.
    assert (Hlen : forall (l : list string) i, List.length (enumerate i l) = List.length l)
      by (induction l as [| x l IH]; intro i; simpl; [reflexivity | now rewrite IH]).
    rewrite Hlen. unfold slice.
    pose proof (firstn_le_length (Z.to_nat (end_ - start)) (skipn (Z.to_nat start) lines)).
    subst start end_. lia.
  - assert (Hmark : forall l, filter (Py.startswith ">>>") (map fmt l)
                              = map fmt (filter (fun p => fst p =? line_number) l)).
    { assert (Hfmt : forall i line,
                Py.startswith ">>>" (fmt (i, line)) = (i =? line_number))
        by (intros i line; subst fmt; cbv beta iota;
            now destruct (i =? line_number)).
      induction l as [| [i line] l IH]; [reflexivity |].
      cbn [map filter fst]. rewrite Hfmt.
      destruct (i =? line_number); cbn [map]; now rewrite IH. }
    rewrite Hmark, enumerate_at by (subst start; lia).
    unfold slice. rewrite nth_error_firstn, nth_error_skipn.
    replace (Z.to_nat start + Z.to_nat (line_number - (start + 1)))%nat
      with (Z.to_nat (line_number - 1)) by (subst start; lia).
    destruct (Z.to_nat (line_number - (start + 1)) <? Z.to_nat (end_ - start))%nat eqn:E.
    + destruct (nth_error lines (Z.to_nat (line_number - 1))); [| reflexivity].
      simpl. now rewrite Z.eqb_refl.
    + apply Nat.ltb_ge in E.
      assert (Hnone : nth_error lines (Z.to_nat (line_number - 1)) = None)
        by (apply nth_error_None; subst start end_; lia).
      now rewrite Hnone.
Qed.

(** ** The patterns of the classifier *)

(** What is left after the first line. *)
Lemma star_dot_greedy {R} (kont : Re.cont R) (s : string) (caps : list string) :
  (forall rest caps', kont rest caps' <> None) ->
  Re.star Re.Dot kont s caps
  = kont (Py.drop (String.length (first_line s)) s) caps.
Proof.
  intros Hk. induction s as [| c s IH]; [reflexivity |].
  cbn [Re.star Re.cmatch first_line].
  destruct (Ascii.eqb c Py.NL); cbn [negb String.length Py.drop]; [reflexivity |].
  rewrite IH. unfold Re.orelse.
  destruct (kont (Py.drop (String.length (first_line s)) s) caps) eqn:E;
    [reflexivity | now apply Hk in E].
Qed.

Lemma first_line_split (s : string) :
  s = (first_line s ++ Py.drop (String.length (first_line s)) s)%string
  /\ Py.contains (String Py.NL "") (first_line s) = false
  /\ (Py.drop (String.length (first_line s)) s = ""
      \/ Py.startswith (String Py.NL "") (Py.drop (String.length (first_line s)) s) = true).
Proof.
  induction s as [| c s (IH1 & IH2 & IH3)]; [now repeat split; left |].
  cbn [first_line]. destruct (Ascii.eqb c Py.NL) eqn:E.
  - cbn [String.length Py.drop String.append]. repeat split.
    right. apply Ascii.eqb_eq in E. subst c. cbn [Py.startswith].
    now rewrite Ascii.eqb_refl.
  - assert (E' : Ascii.eqb Py.NL c = false)
      by (apply Ascii.eqb_neq; apply Ascii.eqb_neq in E; congruence).
    cbn [String.length Py.drop String.append Py.contains Py.startswith].
    rewrite E'. cbn [andb orb].
    repeat split; [now rewrite <- IH1 | exact IH2 | exact IH3].
Qed.

Lemma take_first_line (s : string) :
  Py.take (String.length s - String.length (Py.drop (String.length (first_line s)) s)) s
  = first_line s.
Proof.
  induction s as [| c s IH]; [reflexivity |].
  cbn [first_line]. destruct (Ascii.eqb c Py.NL) eqn:E;
    cbn [String.length Py.drop].
  - now rewrite Nat.sub_diag.
  - assert (Hle : (String.length (Py.drop (String.length (first_line s)) s)
                   <= String.length s)%nat).
    { clear. generalize (String.length (first_line s)). intro n. revert n.
      induction s as [| c s IH]; intros [| n]; simpl; try lia.
      specialize (IH n). lia. }
    rewrite Nat.sub_succ_l by exact Hle. simpl. now rewrite IH.
Qed.

Lemma match_tail_of (p s : string) :
  Re.match_ (Patterns.tail_of p) s
  = if Py.startswith p s
    then let r := Py.drop (String.length p) s in
         Some ([first_line r], Py.drop (String.length (first_line r)) r)
    else None.
Proof.
  unfold Re.match_, Patterns.tail_of. simpl.
  destruct (Py.startswith p s); [| reflexivity].
  rewrite star_dot_greedy by discriminate. cbv zeta. now rewrite take_first_line.
Qed.

Lemma search_tail_of (p s : string) :
  Re.search (Patterns.tail_of p) s
  = option_map (fun r => [first_line r]) (after_first p s).
Proof.
  unfold Re.search. induction s as [| c s IH].
  - simpl Re.search_rest. rewrite match_tail_of. simpl.
    now destruct (Py.startswith p "").
  - simpl Re.search_rest. rewrite match_tail_of. simpl after_first.
    destruct (Py.startswith p (String c s)); [reflexivity | exact IH].
Qed.

Lemma startswith_app (p r : string) : Py.startswith p (p ++ r) = true.
Proof.
  induction p as [| a p IH]; simpl; [reflexivity |]. now rewrite Ascii.eqb_refl.
Qed.

Lemma startswith_drop (p s : string) :
  Py.startswith p s = true -> s = (p ++ Py.drop (String.length p) s)%string.
Proof.
  revert s. induction p as [| a p IH]; intros s H; simpl in *.
  - now destruct s.
  - destruct s as [| b s]; [discriminate |].
    apply andb_prop in H. destruct H as [Hab Hp].
    apply Ascii.eqb_eq in Hab. subst b. simpl. now rewrite <- IH.
Qed.

Lemma after_first_contains (p s : string) :
  after_first p s = None <-> Py.contains p s = false.
Proof.
  induction s as [| c s IH]; simpl.
  - destruct (Py.startswith p ""); simpl; split; congruence.
  - destruct (Py.startswith p (String c s)); simpl; [split; congruence | exact IH].
Qed.

Lemma after_first_occurrence (p s r : string) :
  after_first p s = Some r ->
  exists before,
    s = (before ++ p ++ r)%string
    /\ forall before' r', s = (before' ++ p ++ r')%string ->
                          (String.length before <= String.length before')%nat.
Proof.
  revert r. induction s as [| c s IH]; intros r H; simpl in H.
  - destruct (Py.startswith p "") eqn:E; [| discriminate]. injection H as <-.
    exists "". split; [now apply startswith_drop | intros; simpl; lia].
  - destruct (Py.startswith p (String c s)) eqn:E.
    + injection H as <-. exists "". split; [now apply startswith_drop | intros; simpl; lia].
    + destruct (IH r H) as (before & Hs & Hmin). exists (String c before).
      split; [simpl; now rewrite <- Hs |].
      intros [| c' before'] r' Hs'.
      * simpl in Hs'. rewrite Hs', startswith_app in E. discriminate.
      * simpl in Hs'. injection Hs' as _ Hs'. specialize (Hmin before' r' Hs'). simpl. lia.
Qed.

(** X23: the eighteen patterns of the table that are a literal text
    followed by one group for the rest of the line are found in a text
    exactly when the text contains the literal, and the message they give
    is what follows its first occurrence, up to the end of that line.
    The first entry decides before all others: a text that contains
    [ImportError: ] is an ImportError, whatever else it contains. *)
Theorem literal_pattern_gives_rest_of_line (p text : string) :
  Re.search (Patterns.tail_of p) text
  = option_map (fun r => [first_line r]) (after_first p text)
  /\ (after_first p text = None <-> Py.contains p text = false)
  /\ (forall r, after_first p text = Some r ->
                (exists before,
                    text = (before ++ p ++ r)%string
                    /\ forall before' r', text = (before' ++ p ++ r')%string ->
                                          (String.length before <= String.length before')%nat)
                /\ Py.contains (String Py.NL "") (first_line r) = false
                /\ exists rest, r = (first_line r ++ rest)%string
                                /\ (rest = "" \/ Py.startswith (String Py.NL "") rest = true))
  /\ (forall r, after_first "ImportError: " text = Some r ->
                first_pattern Patterns.ERROR_PATTERNS text
                = Some ("ImportError", ErrorCategory.PYTHON, ErrorSeverity.HIGH, true,
                        first_line r)).
Proof.
  split; [apply search_tail_of |]. split; [apply after_first_contains |]. split.
  - intros r Hr. split; [now apply after_first_occurrence |].
    destruct (first_line_split r) as (H1 & H2 & H3). split; [exact H2 |].
    exists (Py.drop (String.length (first_line r)) r). now split.
  - intros r Hr. unfold Patterns.ERROR_PATTERNS. cbn [first_pattern].
    now rewrite search_tail_of, Hr.
Qed.

(** ** The stack trace of an error *)

Lemma nl_free_cons (x : ascii) (p : string) :
  Py.contains (String Py.NL "") (String x p) = false ->
  Ascii.eqb x Py.NL = false /\ Py.contains (String Py.NL "") p = false.
Proof.
  cbn [Py.contains Py.startswith]. intros H. apply orb_false_iff in H.
  destruct H as [H1 H2]. split; [| exact H2].
  destruct (Ascii.eqb x Py.NL) eqn:E; [| reflexivity].
  apply Ascii.eqb_eq in E. subst x. now rewrite Ascii.eqb_refl in H1.
Qed.

Lemma startswith_app_nl (p a b : string) :
  Py.contains (String Py.NL "") p = false ->
  Py.startswith p (a ++ String Py.NL b) = Py.startswith p a.
Proof.
  revert a. induction p as [| x p IH]; intros a Hp; [reflexivity |].
  apply nl_free_cons in Hp. destruct Hp as [Hx Hp].
  destruct a as [| y a]; cbn [String.append Py.startswith].
  - now rewrite Hx.
  - now rewrite IH.
Qed.

Lemma contains_app_nl (p a b : string) :
  p <> "" ->
  Py.contains (String Py.NL "") p = false ->
  Py.contains p (a ++ String Py.NL b) = Py.contains p a || Py.contains p b.
Proof.
  intros Hne Hp. destruct p as [| x p]; [congruence |].
  induction a as [| y a IH].
  - cbn [String.append]. cbn [Py.contains]. cbn [Py.startswith].
    destruct (nl_free_cons _ _ Hp) as [Hx _]. now rewrite Hx.
  - change (String y a ++ String Py.NL b)%string with (String y (a ++ String Py.NL b)).
    cbn [Py.contains].
    change (String y (a ++ String Py.NL b)) with (String y a ++ String Py.NL b)%string.
    rewrite startswith_app_nl by exact Hp. rewrite IH. now rewrite orb_assoc.
Qed.

Lemma append_nil_r (s : string) : (s ++ "")%string = s.
Proof. induction s as [| c s IH]; simpl; [reflexivity | now rewrite IH]. Qed.

Lemma append_assoc (a b c : string) : ((a ++ b) ++ c)%string = (a ++ b ++ c)%string.
Proof. induction a as [| x a IH]; simpl; [reflexivity | now rewrite IH]. Qed.

(** A text without a newline is in a text exactly when it is in one
    of its lines. *)
Lemma contains_split_nl (p cur s : string) :
  p <> "" ->
  Py.contains (String Py.NL "") p = false ->
  existsb (Py.contains p) (Py.split_nl_acc cur s) = Py.contains p (cur ++ s).
Proof.
  intros Hne Hp. revert cur. induction s as [| c s IH]; intro cur; cbn [Py.split_nl_acc].
  - cbn [existsb]. now rewrite append_nil_r, orb_false_r.
  - destruct (Ascii.eqb c Py.NL) eqn:E.
    + apply Ascii.eqb_eq in E. subst c. cbn [existsb]. rewrite IH.
      now rewrite contains_app_nl.
    + rewrite IH, append_assoc. reflexivity.
Qed.

Lemma from_traceback_spec (lines : list string) :
  existsb (Py.contains "Traceback") lines = true ->
  exists before line after,
    lines = before ++ line :: after
    /\ (forall l, In l before -> Py.contains "Traceback" l = false)
    /\ Py.contains "Traceback" line = true
    /\ from_traceback lines = line :: after.
Proof.
  induction lines as [| l lines IH]; [discriminate |]. cbn [existsb from_traceback].
  destruct (Py.contains "Traceback" l) eqn:E.
  - intros _. exists [], l, lines. now repeat split.
  - intros H. destruct (IH H) as (before & line & after & -> & Hb & Hl & Hf).
    exists (l :: before), line, after. repeat split; try assumption.
    intros x [<- | Hx]; [exact E | now apply Hb].
Qed.

(** X24: [_extract_stack_trace] gives [None] exactly for a text without
    [Traceback]; otherwise it gives the text from its first line that
    contains [Traceback] to its end, and there is such a line. *)
Theorem stack_trace_starts_at_traceback (log_text : string) :
  match _extract_stack_trace log_text with
  | None => Py.contains "Traceback" log_text = false
  | Some trace =>
      Py.contains "Traceback" log_text = true
      /\ exists before line after,
           Py.split_nl log_text = before ++ line :: after
           /\ (forall l, In l before -> Py.contains "Traceback" l = false)
           /\ Py.contains "Traceback" line = true
           /\ trace = Py.join_nl (line :: after)
  end.
Proof.
  unfold _extract_stack_trace.
  destruct (Py.contains "Traceback" log_text) eqn:E; [| reflexivity].
  split; [reflexivity |].
  assert (H : existsb (Py.contains "Traceback") (Py.split_nl log_text) = true).
  { unfold Py.split_nl. rewrite contains_split_nl; [exact E | discriminate | reflexivity]. }
  destruct (from_traceback_spec _ H) as (before & line & after & Hs & Hb & Hl & Hf).
  exists before, line, after. rewrite Hf. now repeat split.
Qed.

(** ** Blank lines *)

Section Blank.

Variable utcnow : nat -> Z.
Variable uuid4 : nat -> string.

Lemma process_lines_skips_blank (lines block : list string) (inside : bool) :
  process_lines utcnow uuid4 (filter (fun l => negb (Py.blank l)) lines) block inside
  = process_lines utcnow uuid4 lines block inside.
Proof.
  revert block inside. induction lines as [| line rest IH]; intros block inside;
    [reflexivity |].
  cbn [filter process_lines]. destruct (Py.blank line) eqn:E; cbn [negb]; [apply IH |].
  cbn [process_lines]. rewrite E.
  destruct (Re.match_ Patterns.ERROR_START_PATTERN line); [now rewrite IH |].
  destruct inside; [| now rewrite IH].
  destruct (_ || _); now rewrite ?IH.
Qed.

(** X25: blank lines do not count: two log texts with the same lines
    that are not blank are processed alike, so a blank line neither ends
    an error block nor enters the context buffer. *)
Theorem blank_lines_are_skipped (content content' : string) (w : World) :
  filter (fun l => negb (Py.blank l)) (Py.split_nl content)
  = filter (fun l => negb (Py.blank l)) (Py.split_nl content') ->
  _process_log_content utcnow uuid4 content w = _process_log_content utcnow uuid4 content' w.
Proof.
  intros H. unfold _process_log_content.
  rewrite <- (process_lines_skips_blank (Py.split_nl content)), H.
  now rewrite process_lines_skips_blank.
Qed.

End Blank.

(** ** The wait between two attempts *)

Section Wait.

Variable utcnow : nat -> Z.




End Wait.

(** ** Recurrence of an error *)

Section Recurrence.

Variable utcnow : nat -> Z.
Variable uuid4 : nat -> string.


End Recurrence.

(** ** Which errors are attempted *)



Section Attempted.

Variable utcnow : nat -> Z.
Variable uuid4 : nat -> string.



End Attempted.

(** ** The further theorems at work on concrete runs *)



(** A second error is recorded after the first, which an attempt and an
    ignore call have changed in the meantime. *)
Lemma errors_are_only_appended_witness :
  let clock := Scenario.clock Scenario.second in
  let before := exec (_process_log_content clock Scenario.ids Scenario.value_error_line)
                     Scenario.fresh in
  let actions := [ Poll; Finish Scenario.agent_fails; Ignore "a" "alice";
                   Ingest Scenario.key_error_line ] in
  exists s' added,
    run_actions clock Scenario.ids actions (mkSys before None) = Some s'
    /\ map detection (errors (world s'))
       = map detection (errors before) ++ map detection added
    /\ Forall within_bounds added.
Proof.
  intros clock before actions.
  destruct (run_actions clock Scenario.ids actions (mkSys before None))
    as [s' |] eqn:Hrun; [| vm_compute in Hrun; discriminate Hrun].
  destruct (errors_are_only_appended clock Scenario.ids actions (mkSys before None) s' Hrun)
    as (added & Hadded & Hbounds).
  exists s', added. split; [reflexivity |]. split; [exact Hadded | exact Hbounds].
Defined.




(** A traceback that is logged without its header line. *)
Lemma text_without_header_is_not_detected_witness :
  let content := ("Traceback (most recent call last):" ++ Scenario.nl
                  ++ "ValueError: bad value")%string in
  let w' := exec (_process_log_content (Scenario.clock Scenario.second) Scenario.ids content)
                 Scenario.fresh in
  errors w' = [] /\ bus w' = bus Scenario.fresh.
Proof.
  intros content w'.
  destruct (text_without_header_is_not_detected
              (Scenario.clock Scenario.second) Scenario.ids Scenario.fresh content)
    as [buf Hbuf].
  - intros line Hin. vm_compute in Hin.
    destruct Hin as [<- | [<- | []]]; vm_compute; reflexivity.
  - fold w' in Hbuf. rewrite Hbuf. split; reflexivity.
Defined.



(** A scan of a log with one error, with the default limit. *)
Lemma scan_log_file_returns_newest_first_witness :
  let scan := scan_log_file (Scenario.clock Scenario.second) Scenario.ids
                            (Some Scenario.value_error_line) None 100 in
  Z.of_nat (List.length (eval scan Scenario.fresh)) <= 100
  /\ forall e, In e (errors (exec scan Scenario.fresh)) -> In e (eval scan Scenario.fresh).
Proof.
  intros scan.
  destruct (scan_log_file_returns_newest_first
              (Scenario.clock Scenario.second) Scenario.ids Scenario.fresh
              (Some Scenario.value_error_line) None 100)
    as (Hlen & _ & _ & Hall & _); [lia |].
  split; [exact Hlen |]. apply Hall; [discriminate | reflexivity |].
  vm_compute. discriminate.
Defined.

(** A file of three lines, the error on the second. *)
Lemma code_context_marks_the_error_line_witness :
  filter (Py.startswith ">>>") (context_lines ["import os"; "x = 1 +"; "print(x)"] 2 1)
  = [">>>    2: x = 1 +"].
Proof.
  refine (proj2 (proj2 (code_context_marks_the_error_line
                          ["import os"; "x = 1 +"; "print(x)"] 2 1 _ _))); lia.
Defined.

(** Two errors, with and without an empty line between them. *)
Lemma blank_lines_are_skipped_witness :
  let clock := Scenario.clock Scenario.second in
  _process_log_content clock Scenario.ids
    (Scenario.value_error_line ++ Scenario.nl ++ Scenario.nl ++ Scenario.key_error_line)%string
    Scenario.fresh
  = _process_log_content clock Scenario.ids
      (Scenario.value_error_line ++ Scenario.nl ++ Scenario.key_error_line)%string
      Scenario.fresh.
Proof.
  intro clock. apply blank_lines_are_skipped. vm_compute. reflexivity.
Defined.




